(** * urlbox-python: the [UrlboxClient] request builder

    A shallow embedding of [urlbox/urlbox_client.py] together with the
    parts of the Python runtime it leans on ([str] methods, [urllib.parse],
    [hmac]/[hashlib.sha1], [json]), followed by the properties of the
    client that its specification states.

    Conventions.
    - A Python [str] is a [string]; every [ascii] stands for the Unicode
      code point of the same number (0..255).  [str.encode] is UTF-8, so a
      code point above 127 becomes two bytes.
    - Python [bytes] are [list byte].
    - A [dict] is an association list in insertion order.
    - A method of the client is a computation over a [World]: the caller's
      options dictionary (mutated in place) and the log of HTTP requests
      handed to [requests]. *)

From Stdlib Require Import ZArith NArith List String Ascii Bool Lia.
From Stdlib.Strings Require Import Byte.
From Stdlib Require Import DecimalString.
Import ListNotations.

Local Open Scope string_scope.

(* ================================================================== *)
(** ** Python strings *)

Module PyStr.

(** [str.isspace] on one character, for code points below 256:
    TAB..CR, FS..US, SPACE, NEL and NBSP. *)
Definition isspace (c : ascii) : bool :=
  let n := N_of_ascii c in
  (((9 <=? n) && (n <=? 13)) || ((28 <=? n) && (n <=? 32))
   || (n =? 133) || (n =? 160))%N.

Fixpoint lstrip_by (p : ascii -> bool) (s : string) : string :=
  match s with
  | EmptyString => EmptyString
  | String c s' => if p c then lstrip_by p s' else s
  end.

Fixpoint rstrip_by (p : ascii -> bool) (s : string) : string :=
  match s with
  | EmptyString => EmptyString
  | String c s' =>
      match rstrip_by p s' with
      | EmptyString => if p c then EmptyString else String c EmptyString
      | r => String c r
      end
  end.

(** [s.strip()] *)
Definition strip (s : string) : string :=
  rstrip_by isspace (lstrip_by isspace s).

Fixpoint mem (c : ascii) (chars : string) : bool :=
  match chars with
  | EmptyString => false
  | String d r => Ascii.eqb c d || mem c r
  end.

(** [s.rstrip(chars)] *)
Definition rstrip (chars : string) (s : string) : string :=
  rstrip_by (fun c => mem c chars) s.

(** [s.startswith(p)] *)
Definition startswith (s p : string) : bool := prefix p s.

(** [s.replace(a, b)] for one-character [a] and [b]. *)
Fixpoint replace (a b : ascii) (s : string) : string :=
  match s with
  | EmptyString => EmptyString
  | String c s' => String (if Ascii.eqb c a then b else c) (replace a b s')
  end.

(** [sep.join(l)] *)
Fixpoint join (sep : string) (l : list string) : string :=
  match l with
  | [] => ""
  | [x] => x
  | x :: r => x ++ sep ++ join sep r
  end.

(** [str(n)] for an [int]. *)
Definition of_Z (z : Z) : string := NilZero.string_of_int (Z.to_int z).

Definition byte_of_N (n : N) : byte := byte_of_ascii (ascii_of_N n).

(** UTF-8 of one code point below 256. *)
Definition utf8 (c : ascii) : list byte :=
  let n := N_of_ascii c in
  if (n <? 128)%N then [byte_of_ascii c]
  else [byte_of_N (192 + n / 64); byte_of_N (128 + n mod 64)].

(** [str.encode(s)] (UTF-8, the default). *)
Fixpoint encode (s : string) : list byte :=
  match s with
  | EmptyString => []
  | String c s' => (utf8 c ++ encode s')%list
  end.

(** Whether the last character of [s] satisfies [p]. *)
Fixpoint last_is (p : ascii -> bool) (s : string) : bool :=
  match s with
  | EmptyString => false
  | String c r =>
      match r with
      | EmptyString => p c
      | String _ _ => last_is p r
      end
  end.

(** [s] ends with white space. *)
Definition trailing_space (s : string) : bool := last_is isspace s.

(** Every character of [s] satisfies [p]. *)
Fixpoint all (p : ascii -> bool) (s : string) : bool :=
  match s with
  | EmptyString => true
  | String c r => p c && all p r
  end.

End PyStr.

(* ================================================================== *)
(** ** [hashlib.sha1] (FIPS 180-4) on 32-bit words held in [Z] *)

Module Sha1.

Local Open Scope Z_scope.
Local Open Scope list_scope.

Definition w32 (x : Z) : Z := x mod 2 ^ 32.

Definition add32 (x y : Z) : Z := w32 (x + y).

Definition rotl32 (n x : Z) : Z :=
  Z.lor (w32 (Z.shiftl x n)) (Z.shiftr x (32 - n)).

Definition not32 (x : Z) : Z := Z.lxor x 0xFFFFFFFF.

Definition Zbyte (b : byte) : Z := Z.of_N (Byte.to_N b).

Definition byteZ (z : Z) : byte := PyStr.byte_of_N (Z.to_N (z mod 256)).

(** Big-endian bytes of the low [8 * n] bits of [z]. *)
Fixpoint be_bytes (n : nat) (z : Z) : list Z :=
  match n with
  | O => []
  | S n' => be_bytes n' (Z.shiftr z 8) ++ [z mod 256]
  end.

(** Message, one [0x80], zeros up to 56 mod 64, bit length on 64 bits. *)
Definition pad (msg : list Z) : list Z :=
  let len := Z.of_nat (List.length msg) in
  msg ++ [0x80] ++ repeat 0 (Z.to_nat ((55 - len) mod 64))
      ++ be_bytes 8 (8 * len).

Fixpoint words (l : list Z) : list Z :=
  match l with
  | b0 :: b1 :: b2 :: b3 :: r =>
      Z.lor (Z.shiftl b0 24)
        (Z.lor (Z.shiftl b1 16) (Z.lor (Z.shiftl b2 8) b3)) :: words r
  | _ => []
  end.

(** The message schedule, newest word first. *)
Fixpoint schedule (n : nat) (rw : list Z) : list Z :=
  match n with
  | O => rw
  | S n' =>
      let w := Z.lxor (Z.lxor (nth 2 rw 0) (nth 7 rw 0))
                      (Z.lxor (nth 13 rw 0) (nth 15 rw 0)) in
      schedule n' (rotl32 1 w :: rw)
  end.

Definition state : Type := Z * Z * Z * Z * Z.

Definition H0 : state :=
  (0x67452301, 0xEFCDAB89, 0x98BADCFE, 0x10325476, 0xC3D2E1F0).

Definition f (t : nat) (b c d : Z) : Z :=
  if (t <? 20)%nat then Z.lor (Z.land b c) (Z.land (not32 b) d)
  else if (t <? 40)%nat then Z.lxor (Z.lxor b c) d
  else if (t <? 60)%nat then
    Z.lor (Z.lor (Z.land b c) (Z.land b d)) (Z.land c d)
  else Z.lxor (Z.lxor b c) d.

Definition K (t : nat) : Z :=
  if (t <? 20)%nat then 0x5A827999
  else if (t <? 40)%nat then 0x6ED9EBA1
  else if (t <? 60)%nat then 0x8F1BBCDC
  else 0xCA62C1D6.

Definition round (s : state) (tw : nat * Z) : state :=
  let '(a, b, c, d, e) := s in
  let '(t, w) := tw in
  let temp :=
    add32 (add32 (add32 (add32 (rotl32 5 a) (f t b c d)) e) (K t)) w in
  (temp, a, rotl32 30 b, c, d).

Definition compress (h : state) (block : list Z) : state :=
  let w := rev (schedule 64 (rev block)) in
  let '(a, b, c, d, e) := fold_left round (combine (seq 0 80) w) h in
  let '(h0, h1, h2, h3, h4) := h in
  (add32 h0 a, add32 h1 b, add32 h2 c, add32 h3 d, add32 h4 e).

Fixpoint blocks (n : nat) (h : state) (ws : list Z) : state :=
  match n with
  | O => h
  | S n' => blocks n' (compress h (firstn 16 ws)) (skipn 16 ws)
  end.

(** [sha1(msg).digest()] *)
Definition digest (msg : list byte) : list byte :=
  let ws := words (pad (map Zbyte msg)) in
  let '(h0, h1, h2, h3, h4) := blocks (List.length ws / 16) H0 ws in
  map byteZ (flat_map (be_bytes 4) [h0; h1; h2; h3; h4]).

End Sha1.

(* ================================================================== *)
(** ** [hmac.new(key, msg, sha1)] (RFC 2104) *)

Module Hmac.

Local Open Scope list_scope.

Definition block_size : nat := 64.

Definition xor_byte (p : Z) (b : byte) : byte :=
  Sha1.byteZ (Z.lxor (Sha1.Zbyte b) p).

(** The key, hashed when longer than a block, then zero-padded. *)
Definition block_key (key : list byte) : list byte :=
  let k := if (block_size <? List.length key)%nat then Sha1.digest key else key in
  k ++ repeat x00%byte (block_size - List.length k).

Definition digest (key msg : list byte) : list byte :=
  let k := block_key key in
  let inner := Sha1.digest (map (xor_byte 0x36) k ++ msg) in
  Sha1.digest (map (xor_byte 0x5C) k ++ inner).

Definition hex_digit (n : N) : ascii :=
  ascii_of_N (if (n <? 10)%N then 48 + n else 87 + n).

Definition hex_byte (b : byte) : string :=
  let n := Byte.to_N b in
  String (hex_digit (n / 16)) (String (hex_digit (n mod 16)) EmptyString).

Fixpoint hex (l : list byte) : string :=
  match l with
  | [] => ""
  | b :: r => (hex_byte b ++ hex r)%string
  end.

(** [hmac.new(key, msg, sha1).hexdigest()] *)
Definition hexdigest (key msg : list byte) : string := hex (digest key msg).

(** The digits of a lowercase hexadecimal numeral. *)
Definition lower_hex (c : ascii) : bool := PyStr.mem c "0123456789abcdef".

End Hmac.

(* ================================================================== *)
(** ** Option values and the options dictionary *)

(** The scalars an options mapping holds: [str], [bool], [int], [None]. *)
Inductive value : Type :=
| VStr (s : string)
| VBool (b : bool)
| VInt (z : Z)
| VNone.

(** [str(v)], also what an f-string field and [urlencode] apply. *)
Definition py_str (v : value) : string :=
  match v with
  | VStr s => s
  | VBool true => "True"
  | VBool false => "False"
  | VInt z => PyStr.of_Z z
  | VNone => "None"
  end.

Definition type_name (v : value) : string :=
  match v with
  | VStr _ => "str"
  | VBool _ => "bool"
  | VInt _ => "int"
  | VNone => "NoneType"
  end.

Module Dict.

(** Items in insertion order; a dictionary has no key twice ([wf]). *)
Definition t : Type := list (string * value).

Fixpoint get (k : string) (d : t) : option value :=
  match d with
  | [] => None
  | (k', v) :: r => if String.eqb k k' then Some v else get k r
  end.

(** [k in d] *)
Definition contains (k : string) (d : t) : bool :=
  match get k d with Some _ => true | None => false end.

(** [d.get(k, default)] *)
Definition get_default (k : string) (default : value) (d : t) : value :=
  match get k d with Some v => v | None => default end.

(** [d[k] = v]: a present key keeps its place, a new one goes last. *)
Fixpoint set (k : string) (v : value) (d : t) : t :=
  match d with
  | [] => [(k, v)]
  | (k', v') :: r =>
      if String.eqb k k' then (k, v) :: r else (k', v') :: set k v r
  end.

Definition keys (d : t) : list string := map fst d.

Definition wf (d : t) : Prop := NoDup (keys d).

End Dict.

(* ================================================================== *)
(** ** [urllib.parse]: [quote], [quote_plus], [urlencode] *)

Module Urllib.

Definition is_alnum (c : ascii) : bool :=
  let n := N_of_ascii c in
  (((48 <=? n) && (n <=? 57)) || ((65 <=? n) && (n <=? 90))
   || ((97 <=? n) && (n <=? 122)))%N.

(** [_ALWAYS_SAFE]: letters, digits and [_.-~]. *)
Definition always_safe (c : ascii) : bool :=
  is_alnum c || PyStr.mem c "_.-~".

Definition HEX_digit (n : N) : ascii :=
  ascii_of_N (if (n <? 10)%N then 48 + n else 55 + n).

(** One byte: itself when safe, else ['%{:02X}']. *)
Definition quoter (safe : string) (b : byte) : string :=
  let c := ascii_of_byte b in
  if always_safe c || PyStr.mem c safe then String c ""
  else
    let n := Byte.to_N b in
    String "%" (String (HEX_digit (n / 16))
                  (String (HEX_digit (n mod 16)) "")).

Definition quote_from_bytes (safe : string) (bs : list byte) : string :=
  String.concat "" (map (quoter safe) bs).

Definition quote (safe : string) (s : string) : string :=
  quote_from_bytes safe (PyStr.encode s).

Definition quote_plus (s : string) : string :=
  if PyStr.mem " " s
  then PyStr.replace " " "+" (quote " " s)
  else quote "" s.

(** [urlencode(d)] on a dictionary: [k=v] pairs in item order. *)
Definition urlencode (d : Dict.t) : string :=
  PyStr.join "&"
    (map (fun kv => quote_plus (fst kv) ++ "=" ++ quote_plus (py_str (snd kv)))
         d).

(** The alphabet of an encoded query: unreserved characters and
    [%], [+], [=], [&]. *)
Definition query_char (c : ascii) : bool :=
  always_safe c || PyStr.mem c "%+=&".

End Urllib.

(* ================================================================== *)
(** ** [json]: a document is held as its syntax tree *)

Module Json.

Inductive scalar : Type :=
| JString (s : string)
| JNumber (z : Z)
| JTrue
| JFalse
| JNull.

(** An object: members in the order they are written. *)
Definition t : Type := list (string * scalar).

Definition of_value (v : value) : scalar :=
  match v with
  | VStr s => JString s
  | VBool true => JTrue
  | VBool false => JFalse
  | VInt z => JNumber z
  | VNone => JNull
  end.

Definition to_value (j : scalar) : value :=
  match j with
  | JString s => VStr s
  | JNumber z => VInt z
  | JTrue => VBool true
  | JFalse => VBool false
  | JNull => VNone
  end.

(** [json.dumps(d)] *)
Definition dumps (d : Dict.t) : t :=
  map (fun kv => (fst kv, of_value (snd kv))) d.

(** [json.loads(doc)]: members are stored one by one, so of a repeated
    name the last value stays. *)
Definition loads (doc : t) : Dict.t :=
  fold_left (fun d kv => Dict.set (fst kv) (to_value (snd kv)) d) doc [].

End Json.

(* ================================================================== *)
(** ** [requests] and the exceptions of the client *)

Inductive method : Type := GET | HEAD | POST.

(** What the client hands to [requests.get], [requests.head] or
    [requests.post]: URL, [headers=] and the [json=] payload as sent. *)
Record Request : Type := mkRequest {
  req_method : method;
  req_url : string;
  req_headers : list (string * string);
  req_json : option Json.t
}.

Inductive exn : Type :=
| KeyError (msg : string)
| PyException (msg : string)
| InvalidUrlException (url : string)
| AttributeError (msg : string)
| TypeError (msg : string)
| RequestException (msg : string).

(** The error kinds under the names the specification gives them. *)
Definition MissingTargetError : exn :=
  KeyError "Missing 'url' or 'html' key in options".

Definition MissingWebhookError : exn :=
  KeyError "Missing 'webhook_url' key in options".

Definition MissingCredentialError : exn :=
  PyException
    "Missing api_secret when initialising client. Required for authorised post request.".

Definition InvalidUrlError (url : string) : exn := InvalidUrlException url.

(** The world a call runs in. *)
Record World : Type := mkWorld {
  options : Dict.t;
  wire : list Request
}.

Inductive result (A : Type) : Type :=
| Return (a : A)
| Raise (e : exn).

Arguments Return {A} a.
Arguments Raise {A} e.

(** State and exceptions: a raise keeps the world reached so far. *)
Definition M (A : Type) : Type := World -> result A * World.

Definition ret {A} (a : A) : M A := fun w => (Return a, w).

Definition raise {A} (e : exn) : M A := fun w => (Raise e, w).

Definition bind {A B} (c : M A) (k : A -> M B) : M B :=
  fun w =>
    match c w with
    | (Return a, w') => k a w'
    | (Raise e, w') => (Raise e, w')
    end.

Declare Scope py_scope.
Delimit Scope py_scope with py.

Notation "x <- c ;; k" := (bind c (fun x => k))
  (at level 61, c at next level, right associativity) : py_scope.
Notation "c ;; k" := (bind c (fun _ => k))
  (at level 61, right associativity) : py_scope.

Local Open Scope py_scope.

(** [if b: c] as a statement. *)
Definition when (b : bool) (c : M unit) : M unit :=
  if b then c else ret tt.

(** [k in options] *)
Definition contains (k : string) : M bool :=
  fun w => (Return (Dict.contains k (options w)), w).

(** [options[k]] *)
Definition getitem (k : string) : M value :=
  fun w =>
    match Dict.get k (options w) with
    | Some v => (Return v, w)
    | None => (Raise (KeyError ("'" ++ k ++ "'")), w)
    end.

(** [options[k] = v] *)
Definition setitem (k : string) (v : value) : M unit :=
  fun w => (Return tt, mkWorld (Dict.set k v (options w)) (wire w)).

(** [options.get(k, default)] *)
Definition get_or (k : string) (default : value) : M value :=
  fun w => (Return (Dict.get_default k default (options w)), w).

(** The dictionary as it stands, for [urlencode] and [json.dumps]. *)
Definition snapshot : M Dict.t := fun w => (Return (options w), w).

(** [v.strip()]: only a [str] has the method. *)
Definition str_strip (v : value) : M string :=
  match v with
  | VStr s => ret (PyStr.strip s)
  | _ =>
      raise (AttributeError
               ("'" ++ type_name v ++ "' object has no attribute 'strip'"))
  end.

(* ================================================================== *)
(** ** [class UrlboxClient] *)

Definition BASE_API_URL : string := "https://api.urlbox.io/v1/".

Definition POST_END_POINT : string := "render".

Record UrlboxClient : Type := mkClient {
  api_key : string;
  api_secret : option string;
  base_api_url : string
}.

Definition _init_base_api_url (api_host_name : option string) : string :=
  match api_host_name with
  | None => BASE_API_URL
  | Some host => "https://" ++ host ++ "/"
  end.

Definition __init__ (api_key : string) (api_secret api_host_name : option string)
  : UrlboxClient :=
  mkClient api_key api_secret (_init_base_api_url api_host_name).

Definition _prepend_schema (url : string) : string :=
  if negb (PyStr.startswith url "http") then "http://" ++ url else url.

(** [hmac.new(str.encode(api_secret), str.encode(q), sha1).hexdigest()
    .rstrip("\n")]; [str.encode(None)] is a [TypeError]. *)
Definition _token (self : UrlboxClient) (url_encoded_options : string)
  : result string :=
  match api_secret self with
  | Some secret =>
      Return
        (PyStr.rstrip (String (ascii_of_N 10) "")
           (Hmac.hexdigest (PyStr.encode secret)
              (PyStr.encode url_encoded_options)))
  | None =>
      Raise (TypeError
               "descriptor 'encode' for 'str' objects doesn't apply to a 'NoneType' object")
  end.

Definition lift {A} (r : result A) : M A := fun w => (r, w).

(** The collaborators of the client: [validators.url] (true when it
    returns [True]), and the network behind [requests], which answers a
    request, given the ones sent before it, with a response or with a
    transport exception. *)
Class Collaborators : Type := {
  validators_url : string -> bool;
  Response : Type;
  transport : list Request -> Request -> Response + string
}.

Section Client.

Context {env : Collaborators}.

Definition send (r : Request) : M Response :=
  fun w =>
    let w' := mkWorld (options w) (wire w ++ [r])%list in
    match transport (wire w) r with
    | inl resp => (Return resp, w')
    | inr msg => (Raise (RequestException msg), w')
    end.

Definition requests_get (url : string) : M Response :=
  send (mkRequest GET url [] None).

Definition requests_head (url : string) : M Response :=
  send (mkRequest HEAD url [] None).

Definition requests_post (url : string) (headers : list (string * string))
    (json : Dict.t) : M Response :=
  send (mkRequest POST url headers (Some (Json.dumps json))).

Definition _valid_url (url : string) : bool := validators_url url.

Definition _get_authenticated (self : UrlboxClient)
    (format : value) (url_encoded_options : string) : M Response :=
  token <- lift (_token self url_encoded_options) ;;
  requests_get
    (base_api_url self
     ++ api_key self ++ "/" ++ token ++ "/" ++ py_str format
     ++ "?" ++ url_encoded_options).

Definition _get_unauthenticated (self : UrlboxClient)
    (format : value) (url_encoded_options : string) : M Response :=
  requests_get
    (base_api_url self
     ++ api_key self ++ "/" ++ py_str format
     ++ "?" ++ url_encoded_options).

(** What [get] returns: the URL string or the response. *)
Inductive GetResult : Type :=
| UrlString (s : string)
| Reply (r : Response).

Definition get (self : UrlboxClient) (to_string : bool) : M GetResult :=
  has_html <- contains "html" ;;
  has_url <- contains "url" ;;
  when (negb has_html && negb has_url)
    (raise (KeyError "Missing 'url' or 'html' key in options")) ;;
  has_url <- contains "url" ;;
  when has_url
    (url <- getitem "url" ;;
     url_stripped <- str_strip url ;;
     let url_parsed := _prepend_schema url_stripped in
     setitem "url" (VStr url_parsed) ;;
     when (negb (_valid_url url_parsed))
       (raise (InvalidUrlException url_parsed))) ;;
  format <- get_or "format" (VStr "png") ;;
  setitem "format" format ;;
  opts <- snapshot ;;
  let url_encoded_options := Urllib.urlencode opts in
  if to_string then
    ret (UrlString
           (base_api_url self
            ++ api_key self ++ "/" ++ py_str format
            ++ "?" ++ url_encoded_options))
  else
    match api_secret self with
    | None =>
        r <- _get_unauthenticated self format url_encoded_options ;;
        ret (Reply r)
    | Some _ =>
        r <- _get_authenticated self format url_encoded_options ;;
        ret (Reply r)
    end.

Definition head (self : UrlboxClient) : M Response :=
  has_html <- contains "html" ;;
  has_url <- contains "url" ;;
  when (negb has_html && negb has_url)
    (raise (KeyError "Missing 'url' or 'html' key in options")) ;;
  has_url <- contains "url" ;;
  when has_url
    (url <- getitem "url" ;;
     url_stripped <- str_strip url ;;
     let url_parsed := _prepend_schema url_stripped in
     setitem "url" (VStr url_parsed) ;;
     when (negb (_valid_url url_parsed))
       (raise (InvalidUrlException url_parsed))) ;;
  format <- get_or "format" (VStr "png") ;;
  setitem "format" format ;;
  opts <- snapshot ;;
  let url_encoded_options := Urllib.urlencode opts in
  requests_head
    (base_api_url self
     ++ api_key self ++ "/" ++ py_str format
     ++ "?" ++ url_encoded_options).

Definition post (self : UrlboxClient) : M Response :=
  has_html <- contains "html" ;;
  has_url <- contains "url" ;;
  when (negb has_html && negb has_url)
    (raise (KeyError "Missing 'url' or 'html' key in options")) ;;
  has_webhook <- contains "webhook_url" ;;
  when (negb has_webhook)
    (raise (KeyError "Missing 'webhook_url' key in options")) ;;
  match api_secret self with
  | None =>
      raise (PyException
               "Missing api_secret when initialising client. Required for authorised post request.")
  | Some secret =>
      has_url <- contains "url" ;;
      when has_url
        (url <- getitem "url" ;;
         url_stripped <- str_strip url ;;
         let url_parsed := _prepend_schema url_stripped in
         setitem "url" (VStr url_parsed) ;;
         when (negb (_valid_url url_parsed))
           (raise (InvalidUrlException url_parsed))) ;;
      format <- get_or "format" (VStr "png") ;;
      setitem "format" format ;;
      opts <- snapshot ;;
      requests_post
        (base_api_url self ++ POST_END_POINT)
        [("Content-Type", "application/json");
         ("Authorization", "Bearer " ++ secret)]
        (Json.loads (Json.dumps opts))
  end.

(** *** Vocabulary of the specification *)

(** The target after [strip] and [_prepend_schema]. *)
Definition normalize (u : string) : string :=
  _prepend_schema (PyStr.strip u).

(** A target is there: [url] or [html] is a key. *)
Definition has_target (opts : Dict.t) : bool :=
  Dict.contains "html" opts || Dict.contains "url" opts.

(** A valid target: a [url] string that passes validation once
    normalized, or no [url] and an [html]. *)
Definition valid_target (opts : Dict.t) : bool :=
  match Dict.get "url" opts with
  | Some (VStr u) => _valid_url (normalize u)
  | Some _ => false
  | None => Dict.contains "html" opts
  end.

(** The format a call works with. *)
Definition format_of (opts : Dict.t) : value :=
  Dict.get_default "format" (VStr "png") opts.

(** The dictionary with its [url] string normalized. *)
Definition normalized (opts : Dict.t) : Dict.t :=
  match Dict.get "url" opts with
  | Some (VStr u) => Dict.set "url" (VStr (normalize u)) opts
  | _ => opts
  end.

(** The dictionary a call leaves behind when validation passes. *)
Definition prepared (opts : Dict.t) : Dict.t :=
  Dict.set "format" (format_of opts) (normalized opts).

(** The URL [get] builds: signed when a secret is there. *)
Definition get_url (self : UrlboxClient) (o : Dict.t) : string :=
  let q := Urllib.urlencode o in
  match api_secret self with
  | None =>
      base_api_url self ++ api_key self ++ "/" ++ py_str (format_of o)
      ++ "?" ++ q
  | Some secret =>
      base_api_url self ++ api_key self ++ "/"
      ++ Hmac.hexdigest (PyStr.encode secret) (PyStr.encode q) ++ "/"
      ++ py_str (format_of o) ++ "?" ++ q
  end.

(** What a call ends with once the request is on the wire. *)
Definition reply {A} (k : Response -> A) (sent : list Request) (r : Request)
  : result A :=
  match transport sent r with
  | inl resp => Return (k resp)
  | inr msg => Raise (RequestException msg)
  end.

(** The exceptions of the validation phase. *)
Definition validation_error {A} (r : result A) : bool :=
  match r with
  | Raise (KeyError _) | Raise (PyException _)
  | Raise (InvalidUrlException _) | Raise (AttributeError _) => true
  | _ => false
  end.

(** The exceptions raised before the URL block changes anything. *)
Inductive guard : exn -> Prop :=
| guard_target : guard MissingTargetError
| guard_webhook : guard MissingWebhookError
| guard_secret : guard MissingCredentialError
| guard_strip (msg : string) : guard (AttributeError msg).

(** How a call started in [w] ends: stopped by a guard with the world
    untouched, stopped at validation with the url normalized in place, or
    carried through to [done]. *)
Inductive ending {A : Type} (w : World) (done : result A * World)
  : result A * World -> Prop :=
| end_guard (e : exn) : guard e -> ending w done (Raise e, w)
| end_invalid (u : string) :
    Dict.get "url" (options w) = Some (VStr u) ->
    validators_url (normalize u) = false ->
    ending w done
      (Raise (InvalidUrlException (normalize u)),
       mkWorld (Dict.set "url" (VStr (normalize u)) (options w)) (wire w))
| end_done : valid_target (options w) = true -> ending w done done.

(** The URL without a token, as [get] returns it and [head] requests it. *)
Definition plain_url (self : UrlboxClient) (o : Dict.t) : string :=
  base_api_url self ++ api_key self ++ "/" ++ py_str (format_of o)
  ++ "?" ++ Urllib.urlencode o.

(** What [get] does once validation has passed. *)
Definition get_done (self : UrlboxClient) (ts : bool) (w : World)
  : result GetResult * World :=
  let o := prepared (options w) in
  if ts then (Return (UrlString (plain_url self o)), mkWorld o (wire w))
  else
    let r := mkRequest GET (get_url self o) [] None in
    (reply Reply (wire w) r, mkWorld o (wire w ++ [r])%list).

Definition head_done (self : UrlboxClient) (w : World)
  : result Response * World :=
  let o := prepared (options w) in
  let r := mkRequest HEAD (plain_url self o) [] None in
  (reply (fun x => x) (wire w) r, mkWorld o (wire w ++ [r])%list).

Definition post_done (self : UrlboxClient) (w : World)
  : result Response * World :=
  let o := prepared (options w) in
  let r :=
    mkRequest POST (base_api_url self ++ "render")
      [("Content-Type", "application/json");
       ("Authorization",
         "Bearer " ++ match api_secret self with Some s => s | None => "" end)]
      (Some (Json.dumps (Json.loads (Json.dumps o)))) in
  (reply (fun x => x) (wire w) r, mkWorld o (wire w ++ [r])%list).

End Client.

(** *** A concrete set of collaborators, to run the client on examples *)

Module Sample.

(** Accepts [http://] and [https://] followed by a host without blanks. *)
Fixpoint no_space (s : string) : bool :=
  match s with
  | EmptyString => true
  | String c r => negb (PyStr.isspace c) && no_space r
  end.

Definition url_ok (s : string) : bool :=
  (PyStr.startswith s "http://" || PyStr.startswith s "https://")
  && (7 <? String.length s)%nat && no_space s.

(** Every request is answered with status 200. *)
Definition env : Collaborators := {|
  validators_url := url_ok;
  Response := nat;
  transport := fun _ _ => inl 200%nat
|}.

Definition anonymous : UrlboxClient := __init__ "K" None None.

Definition keyed : UrlboxClient := __init__ "K" (Some "S") None.

End Sample.

(* ================================================================== *)
(** * Properties *)


Example sha1_abc :
  Hmac.hex (Sha1.digest (PyStr.encode "abc"))
  = "a9993e364706816aba3e25717850c26c9cd0d89d".
Proof. vm_compute. reflexivity. Qed.

Example sha1_empty :
  Hmac.hex (Sha1.digest []) = "da39a3ee5e6b4b0d3255bfef95601890afd80709".
Proof. vm_compute. reflexivity. Qed.

Example hmac_fox :
  Hmac.hexdigest (PyStr.encode "key")
    (PyStr.encode "The quick brown fox jumps over the lazy dog")
  = "de7c9b85b8b78aa6bc8a7a36f70a90701c9db4d9".
Proof. vm_compute. reflexivity. Qed.

(* ------------------------------------------------------------------ *)
(** ** Dictionaries *)

Lemma Dict_get_set_same (k : string) (v : value) (d : Dict.t) :
  Dict.get k (Dict.set k v d) = Some v.
Proof.
  induction d as [|[k' v'] r IH]; simpl.
  - now rewrite String.eqb_refl.
  - destruct (String.eqb k k') eqn:E; simpl.
    + now rewrite String.eqb_refl.
    + now rewrite E.
Qed.

Lemma Dict_get_set_other (k k' : string) (v : value) (d : Dict.t) :
  String.eqb k' k = false ->
  Dict.get k' (Dict.set k v d) = Dict.get k' d.
Proof.
  intros Hne.
  induction d as [|[k0 v0] r IH]; simpl.
  - now rewrite Hne.
  - destruct (String.eqb k k0) eqn:E; simpl.
    + apply String.eqb_eq in E. subst k0. now rewrite Hne.
    + now rewrite IH.
Qed.

Lemma Dict_set_fresh (k : string) (v : value) (d : Dict.t) :
  ~ In k (Dict.keys d) -> Dict.set k v d = (d ++ [(k, v)])%list.
Proof.
  induction d as [|[k0 v0] r IH]; simpl; intros Hn.
  - reflexivity.
  - destruct (String.eqb k k0) eqn:E.
    + apply String.eqb_eq in E. subst k0. exfalso. apply Hn. now left.
    + f_equal. apply IH. intros Hin. apply Hn. now right.
Qed.

Lemma Dict_keys_set (k : string) (v : value) (d : Dict.t) :
  Dict.keys (Dict.set k v d)
  = if Dict.contains k d then Dict.keys d else (Dict.keys d ++ [k])%list.
Proof.
  unfold Dict.contains.
  induction d as [|[k0 v0] r IH]; simpl.
  - reflexivity.
  - destruct (String.eqb k k0) eqn:E; simpl.
    + apply String.eqb_eq in E. now subst k0.
    + rewrite IH. now destruct (Dict.get k r).
Qed.

Lemma Dict_contains_In (k : string) (d : Dict.t) :
  Dict.contains k d = false -> ~ In k (Dict.keys d).
Proof.
  unfold Dict.contains.
  induction d as [|[k0 v0] r IH]; simpl; intros H.
  - tauto.
  - destruct (String.eqb k k0) eqn:E; [discriminate|].
    intros [Heq | Hin].
    + subst k0. now rewrite String.eqb_refl in E.
    + now apply IH.
Qed.

(** Storing a key keeps a dictionary a dictionary. *)
Lemma Dict_set_wf (k : string) (v : value) (d : Dict.t) :
  Dict.wf d -> Dict.wf (Dict.set k v d).
Proof.
  unfold Dict.wf. intros Hd. rewrite Dict_keys_set.
  destruct (Dict.contains k d) eqn:E; [exact Hd|].
  apply NoDup_incl_NoDup with (l := (k :: Dict.keys d)%list).
  - constructor; [now apply Dict_contains_In | exact Hd].
  - now rewrite length_app, Nat.add_comm.
  - intros x Hx. apply in_or_app. simpl in *. tauto.
Qed.

(* ------------------------------------------------------------------ *)
(** ** JSON: writing a dictionary and reading it back *)

Lemma Json_value_roundtrip (v : value) : Json.to_value (Json.of_value v) = v.
Proof. destruct v as [s|[|]|z|]; reflexivity. Qed.

Lemma Json_loads_from (d acc : Dict.t) :
  NoDup (Dict.keys acc ++ Dict.keys d) ->
  fold_left (fun a kv => Dict.set (fst kv) (Json.to_value (snd kv)) a)
    (Json.dumps d) acc
  = (acc ++ d)%list.
Proof.
  revert acc.
  induction d as [|[k v] r IH]; intros acc Hnd; simpl.
  - now rewrite app_nil_r.
  - rewrite Json_value_roundtrip.
    assert (Hk : ~ In k (Dict.keys acc)).
    { simpl in Hnd. apply NoDup_remove_2 in Hnd.
      intros Hin. apply Hnd. apply in_or_app. now left. }
    rewrite (Dict_set_fresh k v acc Hk).
    rewrite IH.
    + now rewrite <- app_assoc.
    + unfold Dict.keys in *. rewrite map_app. simpl in *.
      now rewrite <- app_assoc.
Qed.

(** [json.loads(json.dumps(d))] gives [d] back. *)
Lemma Json_loads_dumps (d : Dict.t) :
  Dict.wf d -> Json.loads (Json.dumps d) = d.
Proof.
  intros Hd. unfold Json.loads.
  now rewrite (Json_loads_from d []).
Qed.


(* ------------------------------------------------------------------ *)
(** ** Strings: when stripping changes nothing *)

Lemma rstrip_by_keep (p : ascii -> bool) (s : string) :
  PyStr.last_is p s = false -> PyStr.rstrip_by p s = s.
Proof.
  induction s as [|c r IH]; simpl; intros H.
  - reflexivity.
  - destruct r as [|c' r'].
    + simpl. now rewrite H.
    + rewrite (IH H). reflexivity.
Qed.

Lemma lstrip_by_keep (p : ascii -> bool) (c : ascii) (s : string) :
  p c = false -> PyStr.lstrip_by p (String c s) = String c s.
Proof. intros H. simpl. now rewrite H. Qed.

(** A string that starts with [http] and does not end in white space is
    its own [strip()]. *)
Lemma strip_http (u : string) :
  PyStr.startswith u "http" = true ->
  PyStr.trailing_space u = false ->
  PyStr.strip u = u.
Proof.
  unfold PyStr.startswith, PyStr.trailing_space, PyStr.strip.
  intros Hp Hl.
  destruct u as [|c r]; [discriminate|].
  cbn [prefix] in Hp.
  destruct (Ascii.ascii_dec "h"%char c) as [<-|]; [|discriminate].
  rewrite lstrip_by_keep by reflexivity.
  now apply rstrip_by_keep.
Qed.

Lemma hex_digit_not_newline (b : byte) :
  PyStr.mem (Hmac.hex_digit (Byte.to_N b mod 16)) (String (ascii_of_N 10) "")
  = false.
Proof. destruct b; reflexivity. Qed.

Lemma hex_no_trailing_newline (l : list byte) :
  PyStr.last_is (fun c => PyStr.mem c (String (ascii_of_N 10) ""))
    (Hmac.hex l) = false.
Proof.
  induction l as [|b r IH]; [reflexivity|].
  cbn [Hmac.hex Hmac.hex_byte String.append PyStr.last_is].
  destruct (Hmac.hex r) as [|c t].
  - apply hex_digit_not_newline.
  - exact IH.
Qed.

(** [rstrip("\n")] leaves a hex digest as it is. *)
Lemma rstrip_hex (l : list byte) :
  PyStr.rstrip (String (ascii_of_N 10) "") (Hmac.hex l) = Hmac.hex l.
Proof. apply rstrip_by_keep, hex_no_trailing_newline. Qed.

(** The token is the HMAC-SHA1 hex digest of the query under the secret. *)
Lemma token_digest (self : UrlboxClient) (secret q : string) :
  api_secret self = Some secret ->
  _token self q
  = Return (Hmac.hexdigest (PyStr.encode secret) (PyStr.encode q)).
Proof.
  intros H. unfold _token, Hmac.hexdigest. rewrite H.
  now rewrite rstrip_hex.
Qed.

(* ------------------------------------------------------------------ *)
(** ** Running the three methods *)

Section Runs.

Context {env : Collaborators}.

(** Unfolds the statements of a method down to the dictionary lookups. *)
Ltac run :=
  cbv [get head post bind when contains getitem setitem get_or snapshot
       str_strip ret raise lift send requests_get requests_head
       requests_post _get_authenticated _get_unauthenticated _valid_url
       negb andb options wire Dict.contains POST_END_POINT].

(** Runs as far as the equations at hand allow. *)
Ltac crank :=
  repeat (progress
            (run;
             repeat match goal with
                    | E : Dict.get _ _ = _ |- _ => rewrite E
                    | E : validators_url _ = _ |- _ => rewrite E
                    | E : api_secret _ = _ |- _ => rewrite E
                    end)).

Lemma format_after_url (v : value) (o : Dict.t) :
  Dict.get_default "format" (VStr "png") (Dict.set "url" v o) = format_of o.
Proof.
  unfold format_of, Dict.get_default.
  now rewrite Dict_get_set_other.
Qed.

Lemma prepared_url (o : Dict.t) (u : string) :
  Dict.get "url" o = Some (VStr u) ->
  prepared o
  = Dict.set "format" (format_of o) (Dict.set "url" (VStr (normalize u)) o).
Proof. intros H. unfold prepared, normalized. now rewrite H. Qed.

Lemma prepared_html (o : Dict.t) :
  Dict.get "url" o = None ->
  prepared o = Dict.set "format" (format_of o) o.
Proof. intros H. unfold prepared, normalized. now rewrite H. Qed.

Lemma format_of_prepared (o : Dict.t) : format_of (prepared o) = format_of o.
Proof.
  unfold prepared, format_of at 1, Dict.get_default.
  now rewrite Dict_get_set_same.
Qed.

Lemma get_missing_target (self : UrlboxClient) (ts : bool) (w : World) :
  has_target (options w) = false ->
  get self ts w = (Raise MissingTargetError, w).
Proof.
  destruct w as [o l]. unfold has_target, Dict.contains. cbn [options].
  intros H. run.
  destruct (Dict.get "html" o); [discriminate|].
  destruct (Dict.get "url" o); [discriminate|].
  reflexivity.
Qed.

(** After the request is built: send it and wrap the answer. *)
Ltac finish :=
  unfold reply, format_of; cbn [options wire];
  match goal with
  | |- context [transport ?l ?r] => destruct (transport l r)
  end; reflexivity.

Lemma get_valid (self : UrlboxClient) (ts : bool) (w : World) :
  valid_target (options w) = true ->
  get self ts w =
  let o := prepared (options w) in
  if ts then
    (Return (UrlString
               (base_api_url self ++ api_key self ++ "/"
                ++ py_str (format_of o) ++ "?" ++ Urllib.urlencode o)),
     mkWorld o (wire w))
  else
    let r := mkRequest GET (get_url self o) [] None in
    (reply Reply (wire w) r, mkWorld o (wire w ++ [r])%list).
Proof.
  destruct w as [o l].
  unfold valid_target, _valid_url, normalize, Dict.contains.
  cbn [options wire].
  intros H. cbv zeta. unfold get_url. rewrite format_of_prepared.
  destruct (Dict.get "url" o) as [[u| | |]|] eqn:Eu; try discriminate.
  - rewrite (prepared_url _ _ Eu). unfold normalize.
    destruct (Dict.get "html" o) eqn:Eh; crank; rewrite format_after_url;
      (destruct ts; [reflexivity|]);
      (destruct (api_secret self) as [secret|] eqn:Es;
       [rewrite (token_digest self secret _ Es)|]); finish.
  - rewrite (prepared_html _ Eu).
    destruct (Dict.get "html" o) eqn:Eh; [|discriminate]. crank.
    fold (format_of o).
    (destruct ts; [reflexivity|]);
      (destruct (api_secret self) as [secret|] eqn:Es;
       [rewrite (token_digest self secret _ Es)|]); finish.
Qed.

(** Opens a world and the vocabulary, ready for [crank]. *)
Ltac open_world w o l :=
  destruct w as [o l];
  unfold has_target, valid_target, _valid_url, normalize, Dict.contains;
  cbn [options wire].

Lemma get_invalid_url (self : UrlboxClient) (ts : bool) (w : World)
    (u : string) :
  Dict.get "url" (options w) = Some (VStr u) ->
  validators_url (normalize u) = false ->
  get self ts w
  = (Raise (InvalidUrlException (normalize u)),
     mkWorld (Dict.set "url" (VStr (normalize u)) (options w)) (wire w)).
Proof.
  open_world w o l. intros Eu Hv.
  destruct (Dict.get "html" o) eqn:Eh; crank; reflexivity.
Qed.

Lemma get_url_not_str (self : UrlboxClient) (ts : bool) (w : World)
    (v : value) :
  Dict.get "url" (options w) = Some v ->
  (forall u, v <> VStr u) ->
  exists msg, get self ts w = (Raise (AttributeError msg), w).
Proof.
  open_world w o l. intros Eu Hv.
  destruct v as [u| | |]; [now destruct (Hv u)| | |];
    eexists; destruct (Dict.get "html" o) eqn:Eh; crank; reflexivity.
Qed.

Lemma head_missing_target (self : UrlboxClient) (w : World) :
  has_target (options w) = false ->
  head self w = (Raise MissingTargetError, w).
Proof.
  open_world w o l. intros H. run.
  destruct (Dict.get "html" o); [discriminate|].
  destruct (Dict.get "url" o); [discriminate|].
  reflexivity.
Qed.

Lemma head_valid (self : UrlboxClient) (w : World) :
  valid_target (options w) = true ->
  head self w =
  let o := prepared (options w) in
  let r :=
    mkRequest HEAD
      (base_api_url self ++ api_key self ++ "/" ++ py_str (format_of o)
       ++ "?" ++ Urllib.urlencode o) [] None in
  (reply (fun x => x) (wire w) r, mkWorld o (wire w ++ [r])%list).
Proof.
  open_world w o l. intros H. cbv zeta. rewrite format_of_prepared.
  destruct (Dict.get "url" o) as [[u| | |]|] eqn:Eu; try discriminate.
  - rewrite (prepared_url _ _ Eu). unfold normalize.
    destruct (Dict.get "html" o) eqn:Eh; crank; rewrite format_after_url;
      finish.
  - rewrite (prepared_html _ Eu).
    destruct (Dict.get "html" o) eqn:Eh; [|discriminate]. crank.
    fold (format_of o). finish.
Qed.

Lemma head_invalid_url (self : UrlboxClient) (w : World) (u : string) :
  Dict.get "url" (options w) = Some (VStr u) ->
  validators_url (normalize u) = false ->
  head self w
  = (Raise (InvalidUrlException (normalize u)),
     mkWorld (Dict.set "url" (VStr (normalize u)) (options w)) (wire w)).
Proof.
  open_world w o l. intros Eu Hv.
  destruct (Dict.get "html" o) eqn:Eh; crank; reflexivity.
Qed.

Lemma head_url_not_str (self : UrlboxClient) (w : World) (v : value) :
  Dict.get "url" (options w) = Some v ->
  (forall u, v <> VStr u) ->
  exists msg, head self w = (Raise (AttributeError msg), w).
Proof.
  open_world w o l. intros Eu Hv.
  destruct v as [u| | |]; [now destruct (Hv u)| | |];
    eexists; destruct (Dict.get "html" o) eqn:Eh; crank; reflexivity.
Qed.

Lemma post_missing_target (self : UrlboxClient) (w : World) :
  has_target (options w) = false ->
  post self w = (Raise MissingTargetError, w).
Proof.
  open_world w o l. intros H. run.
  destruct (Dict.get "html" o); [discriminate|].
  destruct (Dict.get "url" o); [discriminate|].
  reflexivity.
Qed.

Lemma post_missing_webhook (self : UrlboxClient) (w : World) :
  has_target (options w) = true ->
  Dict.contains "webhook_url" (options w) = false ->
  post self w = (Raise MissingWebhookError, w).
Proof.
  open_world w o l. intros Ht Hw.
  destruct (Dict.get "webhook_url" o) eqn:Ew; [discriminate|].
  destruct (Dict.get "html" o) eqn:Eh;
    destruct (Dict.get "url" o) eqn:Eu; try discriminate;
    crank; reflexivity.
Qed.

Lemma post_missing_secret (self : UrlboxClient) (w : World) :
  has_target (options w) = true ->
  Dict.contains "webhook_url" (options w) = true ->
  api_secret self = None ->
  post self w = (Raise MissingCredentialError, w).
Proof.
  open_world w o l. intros Ht Hw Es.
  destruct (Dict.get "webhook_url" o) eqn:Ew; [|discriminate].
  destruct (Dict.get "html" o) eqn:Eh;
    destruct (Dict.get "url" o) eqn:Eu; try discriminate;
    crank; reflexivity.
Qed.

Lemma post_valid (self : UrlboxClient) (w : World) (secret : string) :
  valid_target (options w) = true ->
  Dict.contains "webhook_url" (options w) = true ->
  api_secret self = Some secret ->
  post self w =
  let o := prepared (options w) in
  let r :=
    mkRequest POST (base_api_url self ++ "render")
      [("Content-Type", "application/json");
       ("Authorization", "Bearer " ++ secret)]
      (Some (Json.dumps (Json.loads (Json.dumps o)))) in
  (reply (fun x => x) (wire w) r, mkWorld o (wire w ++ [r])%list).
Proof.
  open_world w o l. intros H Hw Es. cbv zeta.
  destruct (Dict.get "webhook_url" o) eqn:Ew; [|discriminate].
  destruct (Dict.get "url" o) as [[u| | |]|] eqn:Eu; try discriminate.
  - rewrite (prepared_url _ _ Eu). unfold normalize.
    destruct (Dict.get "html" o) eqn:Eh; crank; rewrite format_after_url;
      finish.
  - rewrite (prepared_html _ Eu).
    destruct (Dict.get "html" o) eqn:Eh; [|discriminate]. crank.
    fold (format_of o). finish.
Qed.

Lemma post_invalid_url (self : UrlboxClient) (w : World)
    (secret u : string) :
  Dict.get "url" (options w) = Some (VStr u) ->
  validators_url (normalize u) = false ->
  Dict.contains "webhook_url" (options w) = true ->
  api_secret self = Some secret ->
  post self w
  = (Raise (InvalidUrlException (normalize u)),
     mkWorld (Dict.set "url" (VStr (normalize u)) (options w)) (wire w)).
Proof.
  open_world w o l. intros Eu Hv Hw Es.
  destruct (Dict.get "webhook_url" o) eqn:Ew; [|discriminate].
  destruct (Dict.get "html" o) eqn:Eh; crank; reflexivity.
Qed.

Lemma post_url_not_str (self : UrlboxClient) (w : World) (secret : string)
    (v : value) :
  Dict.get "url" (options w) = Some v ->
  (forall u, v <> VStr u) ->
  Dict.contains "webhook_url" (options w) = true ->
  api_secret self = Some secret ->
  exists msg, post self w = (Raise (AttributeError msg), w).
Proof.
  open_world w o l. intros Eu Hv Hw Es.
  destruct (Dict.get "webhook_url" o) eqn:Ew; [|discriminate].
  destruct v as [u| | |]; [now destruct (Hv u)| | |];
    eexists; destruct (Dict.get "html" o) eqn:Eh; crank; reflexivity.
Qed.

(** *** What the dictionary holds after a call *)

Lemma url_of_prepared (o : Dict.t) (u : string) :
  Dict.get "url" o = Some (VStr u) ->
  Dict.get "url" (prepared o) = Some (VStr (normalize u)).
Proof.
  intros Eu. rewrite (prepared_url _ _ Eu).
  rewrite Dict_get_set_other by reflexivity.
  apply Dict_get_set_same.
Qed.

Lemma format_in_prepared (o : Dict.t) :
  Dict.get "format" (prepared o) = Some (format_of o).
Proof. unfold prepared. apply Dict_get_set_same. Qed.

Lemma valid_of_url (o : Dict.t) (u : string) :
  Dict.get "url" o = Some (VStr u) ->
  validators_url (normalize u) = true ->
  valid_target o = true.
Proof. intros Eu Hv. unfold valid_target, _valid_url. now rewrite Eu. Qed.

Lemma target_of_url (o : Dict.t) (v : value) :
  Dict.get "url" o = Some v -> has_target o = true.
Proof.
  intros Eu. unfold has_target, Dict.contains. rewrite Eu.
  apply orb_true_r.
Qed.

Lemma url_after_get (self : UrlboxClient) (ts : bool) (w : World)
    (u : string) :
  Dict.get "url" (options w) = Some (VStr u) ->
  Dict.get "url" (options (snd (get self ts w))) = Some (VStr (normalize u)).
Proof.
  intros Eu.
  destruct (validators_url (normalize u)) eqn:Hv.
  - rewrite (get_valid self ts w (valid_of_url _ _ Eu Hv)).
    destruct ts; cbn [snd options]; now apply url_of_prepared.
  - rewrite (get_invalid_url self ts w u Eu Hv). cbn [snd options].
    apply Dict_get_set_same.
Qed.

Lemma url_after_head (self : UrlboxClient) (w : World) (u : string) :
  Dict.get "url" (options w) = Some (VStr u) ->
  Dict.get "url" (options (snd (head self w))) = Some (VStr (normalize u)).
Proof.
  intros Eu.
  destruct (validators_url (normalize u)) eqn:Hv.
  - rewrite (head_valid self w (valid_of_url _ _ Eu Hv)).
    cbn [snd options]. now apply url_of_prepared.
  - rewrite (head_invalid_url self w u Eu Hv). cbn [snd options].
    apply Dict_get_set_same.
Qed.

Lemma url_after_post (self : UrlboxClient) (w : World) (secret u : string) :
  Dict.get "url" (options w) = Some (VStr u) ->
  Dict.contains "webhook_url" (options w) = true ->
  api_secret self = Some secret ->
  Dict.get "url" (options (snd (post self w))) = Some (VStr (normalize u)).
Proof.
  intros Eu Hw Es.
  destruct (validators_url (normalize u)) eqn:Hv.
  - rewrite (post_valid self w secret (valid_of_url _ _ Eu Hv) Hw Es).
    cbn [snd options]. now apply url_of_prepared.
  - rewrite (post_invalid_url self w secret u Eu Hv Hw Es).
    cbn [snd options]. apply Dict_get_set_same.
Qed.

(** [post] stops at its guards with the world as it found it. *)
Lemma post_guarded (self : UrlboxClient) (w : World) :
  has_target (options w) = true ->
  Dict.contains "webhook_url" (options w) = false \/ api_secret self = None ->
  snd (post self w) = w.
Proof.
  intros Ht [Hw | Es].
  - now rewrite (post_missing_webhook self w Ht Hw).
  - destruct (Dict.contains "webhook_url" (options w)) eqn:Hw.
    + now rewrite (post_missing_secret self w Ht Hw Es).
    + now rewrite (post_missing_webhook self w Ht Hw).
Qed.

Lemma normalize_cases (u : string) :
  normalize u
  = if PyStr.startswith (PyStr.strip u) "http"
    then PyStr.strip u
    else "http://" ++ PyStr.strip u.
Proof.
  unfold normalize, _prepend_schema.
  now destruct (PyStr.startswith (PyStr.strip u) "http").
Qed.

Lemma normalize_http (u : string) :
  PyStr.startswith u "http" = true ->
  PyStr.trailing_space u = false ->
  normalize u = u.
Proof.
  intros Hp Hs. rewrite normalize_cases, (strip_http u Hp Hs).
  now rewrite Hp.
Qed.

End Runs.

(* ================================================================== *)
(** * The claims of the specification *)

Section Claims.

Context {env : Collaborators}.

(** C1: for every options mapping with a valid target, when an api_secret
    is configured and to_string is false, [get] issues a GET to
    [{base_api_url}{api_key}/{token}/{format}?{query}], where the token is
    the HMAC-SHA1 hex digest keyed with the UTF-8 bytes of the secret over
    the UTF-8 bytes of the percent-encoded query; the token depends on the
    secret and the encoded query only. *)
Theorem C1_get_signed (self : UrlboxClient) (secret : string) (w : World) :
  valid_target (options w) = true ->
  api_secret self = Some secret ->
  let o := prepared (options w) in
  let query := Urllib.urlencode o in
  let token := Hmac.hexdigest (PyStr.encode secret) (PyStr.encode query) in
  let r :=
    mkRequest GET
      (base_api_url self ++ api_key self ++ "/" ++ token ++ "/"
       ++ py_str (format_of (options w)) ++ "?" ++ query) [] None in
  get self false w = (reply Reply (wire w) r, mkWorld o (wire w ++ [r])%list)
  /\ _token self query = Return token
  /\ forall (other : UrlboxClient) (q : string),
       api_secret other = Some secret -> _token other q = _token self q.
Proof.
  intros Hv Es. cbv zeta. repeat split.
  - rewrite (get_valid self false w Hv). cbv zeta.
    unfold get_url. rewrite Es, format_of_prepared. reflexivity.
  - now apply token_digest.
  - intros other q Eo.
    now rewrite (token_digest other secret q Eo), (token_digest self secret q Es).
Qed.

(** C2: for every options mapping with neither the key 'url' nor the key
    'html', each of [get], [head] and [post] fails with MissingTargetError
    and no request is made. *)
Theorem C2_missing_target (self : UrlboxClient) (ts : bool) (w : World) :
  Dict.contains "url" (options w) = false ->
  Dict.contains "html" (options w) = false ->
  get self ts w = (Raise MissingTargetError, w)
  /\ head self w = (Raise MissingTargetError, w)
  /\ post self w = (Raise MissingTargetError, w).
Proof.
  intros Hu Hh.
  assert (Ht : has_target (options w) = false)
    by (unfold has_target; now rewrite Hu, Hh).
  repeat split.
  - now apply get_missing_target.
  - now apply head_missing_target.
  - now apply post_missing_target.
Qed.

(** C3: for every options mapping with a valid target, [get] with
    to_string true makes no request and returns the unauthenticated URL
    [{base_api_url}{api_key}/{format}?{query}], whatever the secret; for the
    client with key "K" and no secret and the options
    {url: "http://example.com", format: "png"} it returns exactly
    "https://api.urlbox.io/v1/K/png?url=http%3A%2F%2Fexample.com&format=png",
    the query in insertion order. *)
Theorem C3_get_to_string (self : UrlboxClient) (w : World) :
  (valid_target (options w) = true ->
   get self true w
   = (Return (UrlString
                (base_api_url self ++ api_key self ++ "/"
                 ++ py_str (format_of (options w)) ++ "?"
                 ++ Urllib.urlencode (prepared (options w)))),
      mkWorld (prepared (options w)) (wire w)))
  /\ (validators_url "http://example.com" = true ->
      let o := [("url", VStr "http://example.com"); ("format", VStr "png")] in
      get (__init__ "K" None None) true (mkWorld o (wire w))
      = (Return
           (UrlString
              "https://api.urlbox.io/v1/K/png?url=http%3A%2F%2Fexample.com&format=png"),
         mkWorld o (wire w))).
Proof.
  split.
  - intros Hv. rewrite (get_valid self true w Hv). cbv zeta.
    now rewrite format_of_prepared.
  - intros Hex. cbv zeta.
    rewrite get_valid; [reflexivity|].
    unfold valid_target, _valid_url. exact Hex.
Qed.

(** C4: for every options mapping with a valid target, [head] issues an
    unauthenticated HEAD to [{base_api_url}{api_key}/{format}?{query}]; the
    URL has no token segment, also when a secret is configured: the call
    does not depend on the secret at all. *)
Theorem C4_head_unsigned (self : UrlboxClient) (w : World) :
  valid_target (options w) = true ->
  let o := prepared (options w) in
  let r :=
    mkRequest HEAD
      (base_api_url self ++ api_key self ++ "/"
       ++ py_str (format_of (options w)) ++ "?" ++ Urllib.urlencode o)
      [] None in
  head self w = (reply (fun x => x) (wire w) r, mkWorld o (wire w ++ [r])%list)
  /\ forall secret : option string,
       head (mkClient (api_key self) secret (base_api_url self)) w
       = head self w.
Proof.
  intros Hv. cbv zeta. split.
  - rewrite (head_valid self w Hv). cbv zeta.
    now rewrite format_of_prepared.
  - intros secret. now rewrite !(head_valid _ w Hv).
Qed.

(** C5 (amended): [post] fails with MissingWebhookError for every options
    mapping that has a target but lacks the key 'webhook_url', and with
    MissingCredentialError for every client without an api_secret when the
    options have a target and a 'webhook_url'; when target, webhook_url and
    secret are all present and the url, if present, is valid, [post] issues
    exactly one POST to [{base_api_url}render] with the headers
    Content-Type: application/json and Authorization: Bearer {api_secret}
    and the options mapping, as the call leaves it, serialized as the JSON
    body. *)
Theorem C5_post_guards_and_request (self : UrlboxClient) (w : World) :
  has_target (options w) = true ->
  (Dict.contains "webhook_url" (options w) = false ->
   post self w = (Raise MissingWebhookError, w))
  /\ (Dict.contains "webhook_url" (options w) = true ->
      api_secret self = None ->
      post self w = (Raise MissingCredentialError, w))
  /\ (forall secret : string,
        Dict.wf (options w) ->
        valid_target (options w) = true ->
        Dict.contains "webhook_url" (options w) = true ->
        api_secret self = Some secret ->
        let o := prepared (options w) in
        let r :=
          mkRequest POST (base_api_url self ++ "render")
            [("Content-Type", "application/json");
             ("Authorization", "Bearer " ++ secret)]
            (Some (Json.dumps o)) in
        post self w
        = (reply (fun x => x) (wire w) r, mkWorld o (wire w ++ [r])%list)).
Proof.
  intros Ht. repeat split.
  - now apply post_missing_webhook.
  - now apply post_missing_secret.
  - intros secret Hwf Hv Hw Es. cbv zeta.
    rewrite (post_valid self w secret Hv Hw Es). cbv zeta.
    rewrite Json_loads_dumps; [reflexivity|].
    unfold prepared, normalized.
    apply Dict_set_wf.
    destruct (Dict.get "url" (options w)) as [[u| | |]|];
      try exact Hwf; now apply Dict_set_wf.
Qed.

(** C6 (amended): for every options mapping with a 'url' string, [get] and
    [head], and [post] once its webhook_url and api_secret checks have
    passed, store the target trimmed of surrounding white space and
    prefixed with "http://" exactly when the trimmed string does not start
    with "http"; "example.com" becomes "http://example.com". *)
Theorem C6_url_normalized (self : UrlboxClient) (ts : bool) (w : World)
    (u : string) :
  Dict.get "url" (options w) = Some (VStr u) ->
  let t := PyStr.strip u in
  let target := if PyStr.startswith t "http" then t else "http://" ++ t in
  Dict.get "url" (options (snd (get self ts w))) = Some (VStr target)
  /\ Dict.get "url" (options (snd (head self w))) = Some (VStr target)
  /\ (forall secret : string,
        Dict.contains "webhook_url" (options w) = true ->
        api_secret self = Some secret ->
        Dict.get "url" (options (snd (post self w))) = Some (VStr target))
  /\ (u = "example.com" -> target = "http://example.com").
Proof.
  intros Eu. cbv zeta. rewrite <- normalize_cases. repeat split.
  - now apply url_after_get.
  - now apply url_after_head.
  - intros secret Hw Es. now apply (url_after_post self w secret).
  - intros ->. reflexivity.
Qed.

(** C7 (amended): for every 'url' value that starts with "http" and has no
    trailing white space, normalization is a no-op: the value stored back
    into options['url'] by [get], [head] and [post] is the value the caller
    supplied. *)
Theorem C7_http_url_kept (self : UrlboxClient) (ts : bool) (w : World)
    (u : string) :
  Dict.get "url" (options w) = Some (VStr u) ->
  PyStr.startswith u "http" = true ->
  PyStr.trailing_space u = false ->
  _prepend_schema (PyStr.strip u) = u
  /\ Dict.get "url" (options (snd (get self ts w))) = Some (VStr u)
  /\ Dict.get "url" (options (snd (head self w))) = Some (VStr u)
  /\ Dict.get "url" (options (snd (post self w))) = Some (VStr u).
Proof.
  intros Eu Hp Hs.
  pose proof (normalize_http u Hp Hs) as Hn.
  repeat split.
  - exact Hn.
  - rewrite (url_after_get self ts w u Eu). now rewrite Hn.
  - rewrite (url_after_head self w u Eu). now rewrite Hn.
  - destruct (Dict.contains "webhook_url" (options w)) eqn:Hw.
    + destruct (api_secret self) as [secret|] eqn:Es.
      * rewrite (url_after_post self w secret u Eu Hw Es). now rewrite Hn.
      * rewrite (post_guarded self w (target_of_url _ _ Eu)); auto.
    + rewrite (post_guarded self w (target_of_url _ _ Eu)); auto.
Qed.

(** C8: for every options mapping whose 'url' value fails validation once
    normalized, [get] fails with InvalidUrlError carrying the normalized
    URL, and nothing has been sent when it is raised. *)
Theorem C8_get_invalid_url (self : UrlboxClient) (ts : bool) (w : World)
    (u : string) :
  Dict.get "url" (options w) = Some (VStr u) ->
  _valid_url (normalize u) = false ->
  fst (get self ts w) = Raise (InvalidUrlError (normalize u))
  /\ wire (snd (get self ts w)) = wire w.
Proof.
  intros Eu Hv. unfold _valid_url in Hv.
  rewrite (get_invalid_url self ts w u Eu Hv). now split.
Qed.

(** The case analysis behind C9: a call either stops in validation or
    leaves the prepared dictionary. *)
Lemma get_outcome (self : UrlboxClient) (ts : bool) (w : World) :
  validation_error (fst (get self ts w)) = true
  \/ options (snd (get self ts w)) = prepared (options w).
Proof.
  destruct (valid_target (options w)) eqn:Hv.
  - right. rewrite (get_valid self ts w Hv). now destruct ts.
  - left. unfold valid_target, _valid_url in Hv.
    destruct (Dict.get "url" (options w)) as [v|] eqn:Eu.
    + destruct v as [u| | |];
        [ now rewrite (get_invalid_url self ts w u Eu Hv) | | | ];
        (edestruct (get_url_not_str self ts w _ Eu) as [msg ->];
         [intros u'; discriminate | reflexivity]).
    + rewrite get_missing_target; [reflexivity|].
      unfold has_target. rewrite Hv. unfold Dict.contains. now rewrite Eu.
Qed.

Lemma head_outcome (self : UrlboxClient) (w : World) :
  validation_error (fst (head self w)) = true
  \/ options (snd (head self w)) = prepared (options w).
Proof.
  destruct (valid_target (options w)) eqn:Hv.
  - right. now rewrite (head_valid self w Hv).
  - left. unfold valid_target, _valid_url in Hv.
    destruct (Dict.get "url" (options w)) as [v|] eqn:Eu.
    + destruct v as [u| | |];
        [ now rewrite (head_invalid_url self w u Eu Hv) | | | ];
        (edestruct (head_url_not_str self w _ Eu) as [msg ->];
         [intros u'; discriminate | reflexivity]).
    + rewrite head_missing_target; [reflexivity|].
      unfold has_target. rewrite Hv. unfold Dict.contains. now rewrite Eu.
Qed.

Lemma post_outcome (self : UrlboxClient) (w : World) :
  validation_error (fst (post self w)) = true
  \/ options (snd (post self w)) = prepared (options w).
Proof.
  destruct (has_target (options w)) eqn:Ht;
    [|left; now rewrite post_missing_target].
  destruct (Dict.contains "webhook_url" (options w)) eqn:Hw;
    [|left; now rewrite post_missing_webhook].
  destruct (api_secret self) as [secret|] eqn:Es;
    [|left; now rewrite post_missing_secret].
  destruct (valid_target (options w)) eqn:Hv.
  - right. now rewrite (post_valid self w secret Hv Hw Es).
  - left. unfold valid_target, _valid_url in Hv.
    destruct (Dict.get "url" (options w)) as [v|] eqn:Eu.
    + destruct v as [u| | |];
        [ now rewrite (post_invalid_url self w secret u Eu Hv Hw Es) | | | ];
        (edestruct (post_url_not_str self w secret _ Eu) as [msg ->];
         [intros u'; discriminate | assumption | assumption | reflexivity]).
    + exfalso. unfold has_target in Ht. rewrite Hv in Ht.
      unfold Dict.contains in Ht. now rewrite Eu in Ht.
Qed.

(** C9: for every options mapping on which [get], [head] or [post] gets
    past its validation phase, options['format'] holds a value afterwards:
    the caller's when the key 'format' was present, "png" when it was
    not. *)
Theorem C9_format_defaulted (self : UrlboxClient) (ts : bool) (w : World) :
  let expected :=
    match Dict.get "format" (options w) with
    | Some v => v
    | None => VStr "png"
    end in
  (validation_error (fst (get self ts w)) = false ->
   Dict.get "format" (options (snd (get self ts w))) = Some expected)
  /\ (validation_error (fst (head self w)) = false ->
      Dict.get "format" (options (snd (head self w))) = Some expected)
  /\ (validation_error (fst (post self w)) = false ->
      Dict.get "format" (options (snd (post self w))) = Some expected).
Proof.
  cbv zeta. repeat split; intros Hok.
  - destruct (get_outcome self ts w) as [He | ->]; [congruence|].
    apply format_in_prepared.
  - destruct (head_outcome self w) as [He | ->]; [congruence|].
    apply format_in_prepared.
  - destruct (post_outcome self w) as [He | ->]; [congruence|].
    apply format_in_prepared.
Qed.

(** C10: in [post] the webhook_url and api_secret checks come before the
    URL is touched: for every options mapping that has a target but lacks
    'webhook_url', [post] raises the missing-webhook error whatever
    options['url'] holds, well formed or not, and leaves options['url']
    exactly as supplied; a missing secret is reported the same way. *)
Theorem C10_post_checks_before_url (self : UrlboxClient) (w : World) :
  has_target (options w) = true ->
  (Dict.contains "webhook_url" (options w) = false ->
   fst (post self w) = Raise MissingWebhookError
   /\ snd (post self w) = w
   /\ Dict.get "url" (options (snd (post self w)))
      = Dict.get "url" (options w))
  /\ (Dict.contains "webhook_url" (options w) = true ->
      api_secret self = None ->
      fst (post self w) = Raise MissingCredentialError
      /\ snd (post self w) = w).
Proof.
  intros Ht. split.
  - intros Hw. rewrite (post_missing_webhook self w Ht Hw). now repeat split.
  - intros Hw Es. rewrite (post_missing_secret self w Ht Hw Es). now split.
Qed.

End Claims.

(* ================================================================== *)
(** * The claims on concrete calls *)

Lemma C1_witness :
  let w := mkWorld [("url", VStr "example.com")] [] in
  valid_target (env := Sample.env) (options w) = true
  /\ api_secret Sample.keyed = Some "S"
  /\ get (env := Sample.env) Sample.keyed false w
     = (Return (Reply (env := Sample.env) 200%nat),
        mkWorld [("url", VStr "http://example.com"); ("format", VStr "png")]
          [mkRequest GET
             "https://api.urlbox.io/v1/K/8e65067c743a7f92bf6e9b96e27e8de35efa5490/png?url=http%3A%2F%2Fexample.com&format=png"
             [] None]).
Proof.
  cbv zeta. split; [reflexivity|]. split; [reflexivity|].
  etransitivity.
  - apply (C1_get_signed (env := Sample.env) Sample.keyed "S"); reflexivity.
  - vm_compute. reflexivity.
Defined.

Lemma C2_witness :
  let w := mkWorld [("width", VInt 300)] [] in
  Dict.contains "url" (options w) = false
  /\ Dict.contains "html" (options w) = false
  /\ get (env := Sample.env) Sample.keyed false w = (Raise MissingTargetError, w)
  /\ head (env := Sample.env) Sample.keyed w = (Raise MissingTargetError, w)
  /\ post (env := Sample.env) Sample.keyed w = (Raise MissingTargetError, w).
Proof.
  cbv zeta. split; [reflexivity|]. split; [reflexivity|].
  apply (C2_missing_target (env := Sample.env)); reflexivity.
Defined.

Lemma C3_witness :
  let w := mkWorld [("url", VStr " example.com/a?b=1 "); ("width", VInt 300)] [] in
  valid_target (env := Sample.env) (options w) = true
  /\ validators_url (Collaborators := Sample.env) "http://example.com" = true
  /\ get (env := Sample.env) Sample.keyed true w
     = (Return
          (UrlString (env := Sample.env)
             "https://api.urlbox.io/v1/K/png?url=http%3A%2F%2Fexample.com%2Fa%3Fb%3D1&width=300&format=png"),
        mkWorld
          [("url", VStr "http://example.com/a?b=1"); ("width", VInt 300);
           ("format", VStr "png")] [])
  /\ get (env := Sample.env) (__init__ "K" None None) true
       (mkWorld [("url", VStr "http://example.com"); ("format", VStr "png")] [])
     = (Return
          (UrlString (env := Sample.env)
             "https://api.urlbox.io/v1/K/png?url=http%3A%2F%2Fexample.com&format=png"),
        mkWorld [("url", VStr "http://example.com"); ("format", VStr "png")] []).
Proof.
  cbv zeta. split; [reflexivity|]. split; [reflexivity|]. split.
  - etransitivity.
    + apply (proj1 (C3_get_to_string (env := Sample.env) Sample.keyed _)).
      reflexivity.
    + vm_compute. reflexivity.
  - apply (proj2 (C3_get_to_string (env := Sample.env) Sample.keyed
                    (mkWorld [] []))).
    reflexivity.
Defined.

Lemma C4_witness :
  let w := mkWorld [("html", VStr "<b>hi</b>"); ("full_page", VBool true)] [] in
  valid_target (env := Sample.env) (options w) = true
  /\ head (env := Sample.env) Sample.keyed w
     = (Return 200%nat,
        mkWorld
          [("html", VStr "<b>hi</b>"); ("full_page", VBool true);
           ("format", VStr "png")]
          [mkRequest HEAD
             "https://api.urlbox.io/v1/K/png?html=%3Cb%3Ehi%3C%2Fb%3E&full_page=True&format=png"
             [] None]).
Proof.
  cbv zeta. split; [reflexivity|].
  etransitivity.
  - apply (C4_head_unsigned (env := Sample.env) Sample.keyed). reflexivity.
  - vm_compute. reflexivity.
Defined.

Lemma C5_witness :
  let o := [("url", VStr "example.com"); ("webhook_url", VStr "http://h.example/cb")] in
  has_target [("html", VStr "<p>")] = true
  /\ post (env := Sample.env) Sample.keyed (mkWorld [("html", VStr "<p>")] [])
     = (Raise MissingWebhookError, mkWorld [("html", VStr "<p>")] [])
  /\ post (env := Sample.env) Sample.anonymous (mkWorld o [])
     = (Raise MissingCredentialError, mkWorld o [])
  /\ post (env := Sample.env) Sample.keyed (mkWorld o [])
     = (Return 200%nat,
        mkWorld
          [("url", VStr "http://example.com");
           ("webhook_url", VStr "http://h.example/cb"); ("format", VStr "png")]
          [mkRequest POST "https://api.urlbox.io/v1/render"
             [("Content-Type", "application/json");
              ("Authorization", "Bearer S")]
             (Some
                [("url", Json.JString "http://example.com");
                 ("webhook_url", Json.JString "http://h.example/cb");
                 ("format", Json.JString "png")])]).
Proof.
  cbv zeta. split; [reflexivity|]. split; [|split].
  - apply (proj1 (C5_post_guards_and_request (env := Sample.env)
                    Sample.keyed (mkWorld [("html", VStr "<p>")] []) eq_refl)).
    reflexivity.
  - apply (proj1 (proj2 (C5_post_guards_and_request (env := Sample.env)
                           Sample.anonymous
                           (mkWorld
                              [("url", VStr "example.com");
                               ("webhook_url", VStr "http://h.example/cb")] [])
                           eq_refl))); reflexivity.
  - etransitivity.
    + apply (proj2 (proj2 (C5_post_guards_and_request (env := Sample.env)
                             Sample.keyed
                             (mkWorld
                                [("url", VStr "example.com");
                                 ("webhook_url", VStr "http://h.example/cb")] [])
                             eq_refl)) "S"); try reflexivity.
      repeat constructor; simpl; intuition discriminate.
    + vm_compute. reflexivity.
Defined.

(** C5 as stated fails: a client without a secret on options without
    'webhook_url' gets the missing-webhook error, not the missing-credential
    one, and on options without a target the missing-target error. *)
Lemma C5_counterexample :
  let o := [("url", VStr "http://example.com")] in
  api_secret Sample.anonymous = None
  /\ Dict.contains "webhook_url" o = false
  /\ Dict.contains "webhook_url" [] = false
  /\ fst (post (env := Sample.env) Sample.anonymous (mkWorld o []))
     = Raise MissingWebhookError
  /\ fst (post (env := Sample.env) Sample.anonymous (mkWorld o []))
     <> Raise MissingCredentialError
  /\ fst (post (env := Sample.env) Sample.anonymous (mkWorld [] []))
     = Raise MissingTargetError
  /\ fst (post (env := Sample.env) Sample.anonymous (mkWorld [] []))
     <> Raise MissingWebhookError.
Proof.
  cbv zeta. repeat split; try reflexivity; vm_compute; discriminate.
Qed.

Lemma C6_witness :
  let w :=
    mkWorld [("url", VStr "  example.com "); ("webhook_url", VStr "http://h.example/cb")]
      [] in
  Dict.get "url" (options w) = Some (VStr "  example.com ")
  /\ Dict.get "url"
       (options (snd (get (env := Sample.env) Sample.keyed false w)))
     = Some (VStr "http://example.com")
  /\ Dict.get "url" (options (snd (head (env := Sample.env) Sample.keyed w)))
     = Some (VStr "http://example.com")
  /\ Dict.get "url" (options (snd (post (env := Sample.env) Sample.keyed w)))
     = Some (VStr "http://example.com").
Proof.
  cbv zeta. split; [reflexivity|].
  pose proof (C6_url_normalized (env := Sample.env) Sample.keyed false
                (mkWorld
                   [("url", VStr "  example.com ");
                    ("webhook_url", VStr "http://h.example/cb")] [])
                "  example.com " eq_refl) as H.
  cbv zeta in H. destruct H as (Hg & Hh & Hp & _).
  split; [exact Hg|]. split; [exact Hh|].
  exact (Hp "S" eq_refl eq_refl).
Defined.

(** C6 as stated fails for [post]: without 'webhook_url' it raises before
    the URL is touched, and "example.com" stays as it was. *)
Lemma C6_counterexample :
  let w := mkWorld [("url", VStr "example.com")] [] in
  Dict.get "url" (options w) = Some (VStr "example.com")
  /\ _prepend_schema (PyStr.strip "example.com") = "http://example.com"
  /\ Dict.get "url" (options (snd (post (env := Sample.env) Sample.keyed w)))
     = Some (VStr "example.com")
  /\ Dict.get "url" (options (snd (post (env := Sample.env) Sample.keyed w)))
     <> Some (VStr "http://example.com").
Proof.
  cbv zeta. repeat split; try reflexivity. vm_compute. discriminate.
Qed.

Lemma C7_witness :
  let w := mkWorld [("url", VStr "https://example.com/x")] [] in
  Dict.get "url" (options w) = Some (VStr "https://example.com/x")
  /\ PyStr.startswith "https://example.com/x" "http" = true
  /\ PyStr.trailing_space "https://example.com/x" = false
  /\ _prepend_schema (PyStr.strip "https://example.com/x")
     = "https://example.com/x"
  /\ Dict.get "url"
       (options (snd (get (env := Sample.env) Sample.keyed true w)))
     = Some (VStr "https://example.com/x")
  /\ Dict.get "url" (options (snd (head (env := Sample.env) Sample.keyed w)))
     = Some (VStr "https://example.com/x")
  /\ Dict.get "url" (options (snd (post (env := Sample.env) Sample.keyed w)))
     = Some (VStr "https://example.com/x").
Proof.
  cbv zeta. split; [reflexivity|]. split; [reflexivity|].
  split; [reflexivity|].
  exact (C7_http_url_kept (env := Sample.env) Sample.keyed true
           (mkWorld [("url", VStr "https://example.com/x")] [])
           "https://example.com/x" eq_refl eq_refl eq_refl).
Defined.

(** C7 as stated fails: a value that starts with "http" and ends in a
    blank is stored without the blank. *)
Lemma C7_counterexample :
  let w := mkWorld [("url", VStr "http://example.com ")] [] in
  PyStr.startswith "http://example.com " "http" = true
  /\ Dict.get "url"
       (options (snd (get (env := Sample.env) Sample.anonymous true w)))
     = Some (VStr "http://example.com")
  /\ Dict.get "url"
       (options (snd (get (env := Sample.env) Sample.anonymous true w)))
     <> Some (VStr "http://example.com ").
Proof.
  cbv zeta. repeat split; try reflexivity. vm_compute. discriminate.
Qed.

Lemma C8_witness :
  let w := mkWorld [("url", VStr "not a url")] [] in
  Dict.get "url" (options w) = Some (VStr "not a url")
  /\ _valid_url (env := Sample.env) (normalize "not a url") = false
  /\ fst (get (env := Sample.env) Sample.keyed false w)
     = Raise (InvalidUrlError "http://not a url")
  /\ wire (snd (get (env := Sample.env) Sample.keyed false w)) = [].
Proof.
  cbv zeta. split; [reflexivity|]. split; [reflexivity|].
  exact (C8_get_invalid_url (env := Sample.env) Sample.keyed false
           (mkWorld [("url", VStr "not a url")] []) "not a url"
           eq_refl eq_refl).
Defined.

Lemma C9_witness :
  let w := mkWorld [("html", VStr "<p>"); ("webhook_url", VStr "http://h.example/cb")] [] in
  let w' := mkWorld [("html", VStr "<p>"); ("format", VStr "pdf")] [] in
  validation_error (fst (get (env := Sample.env) Sample.keyed false w)) = false
  /\ Dict.get "format"
       (options (snd (get (env := Sample.env) Sample.keyed false w)))
     = Some (VStr "png")
  /\ Dict.get "format" (options (snd (head (env := Sample.env) Sample.keyed w')))
     = Some (VStr "pdf")
  /\ Dict.get "format" (options (snd (post (env := Sample.env) Sample.keyed w)))
     = Some (VStr "png").
Proof.
  cbv zeta. split; [vm_compute; reflexivity|]. split; [|split].
  - apply (proj1 (C9_format_defaulted (env := Sample.env) Sample.keyed false
                    (mkWorld
                       [("html", VStr "<p>");
                        ("webhook_url", VStr "http://h.example/cb")] []))).
    vm_compute. reflexivity.
  - apply (proj1 (proj2 (C9_format_defaulted (env := Sample.env) Sample.keyed
                           false
                           (mkWorld
                              [("html", VStr "<p>"); ("format", VStr "pdf")]
                              [])))).
    vm_compute. reflexivity.
  - apply (proj2 (proj2 (C9_format_defaulted (env := Sample.env) Sample.keyed
                           false
                           (mkWorld
                              [("html", VStr "<p>");
                               ("webhook_url", VStr "http://h.example/cb")]
                              [])))).
    vm_compute. reflexivity.
Defined.

Lemma C10_witness :
  let w := mkWorld [("url", VStr " not a url "); ("width", VInt 300)] [] in
  let w' := mkWorld [("url", VStr " not a url "); ("webhook_url", VStr "x")] [] in
  has_target (options w) = true
  /\ Dict.contains "webhook_url" (options w) = false
  /\ fst (post (env := Sample.env) Sample.keyed w) = Raise MissingWebhookError
  /\ Dict.get "url" (options (snd (post (env := Sample.env) Sample.keyed w)))
     = Some (VStr " not a url ")
  /\ fst (post (env := Sample.env) Sample.anonymous w')
     = Raise MissingCredentialError
  /\ snd (post (env := Sample.env) Sample.anonymous w') = w'.
Proof.
  cbv zeta. split; [reflexivity|]. split; [reflexivity|].
  pose proof (proj1 (C10_post_checks_before_url (env := Sample.env)
                       Sample.keyed
                       (mkWorld [("url", VStr " not a url "); ("width", VInt 300)] [])
                       eq_refl) eq_refl) as (H1 & _ & H3).
  split; [exact H1|]. split; [exact H3|].
  exact (proj2 (C10_post_checks_before_url (env := Sample.env)
                  Sample.anonymous
                  (mkWorld
                     [("url", VStr " not a url "); ("webhook_url", VStr "x")] [])
                  eq_refl) eq_refl eq_refl).
Defined.

(* ================================================================== *)
(** * Further properties of the client *)

(* ------------------------------------------------------------------ *)
(** ** Strings *)

Lemma rstrip_by_last (p : ascii -> bool) (s : string) :
  PyStr.last_is p (PyStr.rstrip_by p s) = false.
Proof.
  induction s as [|c r IH]; [reflexivity|].
  cbn [PyStr.rstrip_by].
  destruct (PyStr.rstrip_by p r) as [|c' r'] eqn:E.
  - destruct (p c) eqn:Ec; [reflexivity|]. cbn. exact Ec.
  - exact IH.
Qed.

Lemma last_is_app (p : ascii -> bool) (a : string) (c : ascii) (r : string) :
  PyStr.last_is p (a ++ String c r) = PyStr.last_is p (String c r).
Proof.
  induction a as [|d a IH]; [reflexivity|].
  cbn [String.append PyStr.last_is].
  destruct (a ++ String c r) eqn:E.
  - destruct a; discriminate.
  - exact IH.
Qed.

Lemma prefix_app (p s : string) : prefix p (p ++ s) = true.
Proof.
  induction p as [|c p IH]; cbn [String.append prefix].
  - now destruct s.
  - destruct (Ascii.ascii_dec c c); [exact IH | congruence].
Qed.

Lemma prefix_app_l (p a s : string) :
  prefix p a = true -> prefix p (a ++ s) = true.
Proof.
  revert a. induction p as [|c p IH]; intros a H.
  - now destruct (a ++ s).
  - destruct a as [|d a]; [discriminate|].
    cbn [String.append prefix] in *.
    destruct (Ascii.ascii_dec c d); [now apply IH | discriminate].
Qed.

Lemma lstrip_blank (p : ascii -> bool) (s : string) :
  PyStr.all p s = true -> PyStr.lstrip_by p s = "".
Proof.
  induction s as [|c r IH]; [reflexivity|].
  cbn. destruct (p c); [exact IH | discriminate].
Qed.

Lemma all_app (p : ascii -> bool) (a b : string) :
  PyStr.all p (a ++ b) = PyStr.all p a && PyStr.all p b.
Proof.
  induction a as [|c a IH]; [reflexivity|].
  cbn. now rewrite IH, andb_assoc.
Qed.

Lemma all_impl (p q : ascii -> bool) (s : string) :
  (forall c, p c = true -> q c = true) ->
  PyStr.all p s = true -> PyStr.all q s = true.
Proof.
  intros Hpq. induction s as [|c r IH]; [reflexivity|].
  cbn. intros H. apply andb_true_iff in H as [Hc Hr].
  now rewrite (Hpq c Hc), IH.
Qed.

Lemma all_replace (p q : ascii -> bool) (a b : ascii) (s : string) :
  (forall c, p c = true -> q (if Ascii.eqb c a then b else c) = true) ->
  PyStr.all p s = true -> PyStr.all q (PyStr.replace a b s) = true.
Proof.
  intros Hpq. induction s as [|c r IH]; [reflexivity|].
  cbn. intros H. apply andb_true_iff in H as [Hc Hr].
  now rewrite (Hpq c Hc), IH.
Qed.

Lemma all_concat (p : ascii -> bool) (l : list string) :
  Forall (fun x => PyStr.all p x = true) l ->
  PyStr.all p (String.concat "" l) = true.
Proof.
  induction 1 as [|x l Hx Hl IH]; [reflexivity|].
  cbn [String.concat]. destruct l as [|y l']; [exact Hx|].
  rewrite all_app, Hx. cbn [String.append]. exact IH.
Qed.

Lemma all_join (p : ascii -> bool) (sep : string) (l : list string) :
  PyStr.all p sep = true ->
  Forall (fun x => PyStr.all p x = true) l ->
  PyStr.all p (PyStr.join sep l) = true.
Proof.
  intros Hs. induction 1 as [|x l Hx Hl IH]; [reflexivity|].
  cbn [PyStr.join]. destruct l as [|y l']; [exact Hx|].
  now rewrite !all_app, Hx, Hs, IH.
Qed.

(** The normalized target starts with [http] and carries no white space
    at its end. *)
Lemma normalize_shape (u : string) :
  PyStr.startswith (normalize u) "http" = true
  /\ PyStr.trailing_space (normalize u) = false.
Proof.
  rewrite normalize_cases.
  destruct (PyStr.startswith (PyStr.strip u) "http") eqn:E.
  - split; [exact E|]. apply rstrip_by_last.
  - split; [reflexivity|].
    unfold PyStr.trailing_space.
    destruct (PyStr.strip u) as [|c r] eqn:Es; [reflexivity|].
    rewrite last_is_app, <- Es. apply rstrip_by_last.
Qed.

(* ------------------------------------------------------------------ *)
(** ** Every way a call can end *)

Section Endings.

Context {env : Collaborators}.

Lemma invalid_target_cases (o : Dict.t) :
  valid_target o = false ->
  has_target o = false
  \/ (exists u, Dict.get "url" o = Some (VStr u)
                /\ validators_url (normalize u) = false)
  \/ (exists v, Dict.get "url" o = Some v /\ forall u, v <> VStr u).
Proof.
  unfold valid_target, _valid_url, has_target, Dict.contains.
  destruct (Dict.get "url" o) as [[u| | |]|] eqn:Eu; intros Hv.
  - right; left. now exists u.
  - right; right. eexists; split; [reflexivity | discriminate].
  - right; right. eexists; split; [reflexivity | discriminate].
  - right; right. eexists; split; [reflexivity | discriminate].
  - left. now rewrite Hv.
Qed.

Lemma get_ending (self : UrlboxClient) (ts : bool) (w : World) :
  ending w (get_done self ts w) (get self ts w).
Proof.
  destruct (valid_target (options w)) eqn:Hv.
  - rewrite (get_valid self ts w Hv). now apply end_done.
  - destruct (invalid_target_cases _ Hv) as [Ht | [(u & Eu & Hu) | (v & Eu & Hn)]].
    + rewrite (get_missing_target self ts w Ht). apply end_guard. constructor.
    + rewrite (get_invalid_url self ts w u Eu Hu). now apply end_invalid.
    + destruct (get_url_not_str self ts w v Eu Hn) as [msg ->].
      apply end_guard. constructor.
Qed.

Lemma head_ending (self : UrlboxClient) (w : World) :
  ending w (head_done self w) (head self w).
Proof.
  destruct (valid_target (options w)) eqn:Hv.
  - rewrite (head_valid self w Hv). now apply end_done.
  - destruct (invalid_target_cases _ Hv) as [Ht | [(u & Eu & Hu) | (v & Eu & Hn)]].
    + rewrite (head_missing_target self w Ht). apply end_guard. constructor.
    + rewrite (head_invalid_url self w u Eu Hu). now apply end_invalid.
    + destruct (head_url_not_str self w v Eu Hn) as [msg ->].
      apply end_guard. constructor.
Qed.

Lemma post_ending (self : UrlboxClient) (w : World) :
  ending w (post_done self w) (post self w).
Proof.
  destruct (has_target (options w)) eqn:Ht;
    [|rewrite (post_missing_target self w Ht); apply end_guard; constructor].
  destruct (Dict.contains "webhook_url" (options w)) eqn:Hw;
    [|rewrite (post_missing_webhook self w Ht Hw); apply end_guard;
      constructor].
  destruct (api_secret self) as [secret|] eqn:Es;
    [|rewrite (post_missing_secret self w Ht Hw Es); apply end_guard;
      constructor].
  destruct (valid_target (options w)) eqn:Hv.
  - rewrite (post_valid self w secret Hv Hw Es).
    unfold post_done. rewrite Es. now apply end_done.
  - destruct (invalid_target_cases _ Hv) as [Ht' | [(u & Eu & Hu) | (v & Eu & Hn)]].
    + congruence.
    + rewrite (post_invalid_url self w secret u Eu Hu Hw Es).
      now apply end_invalid.
    + destruct (post_url_not_str self w secret v Eu Hn Hw Es) as [msg ->].
      apply end_guard. constructor.
Qed.

End Endings.

(* ------------------------------------------------------------------ *)
(** ** Properties of all three methods *)

Section Coverage.

Context {env : Collaborators}.

Ltac by_ending H :=
  inversion H as [e Hg Heq | u Eu Hu Heq | Hv Heq]; clear Heq.

Lemma reply_not_validation {A : Type} (k : Response -> A)
    (l : list Request) (r : Request) :
  validation_error (reply k l r) = false.
Proof. unfold reply. now destruct (transport l r). Qed.

Lemma guard_is_validation {A : Type} (e : exn) :
  guard e -> validation_error (A := A) (Raise e) = true.
Proof. now destruct 1. Qed.

Lemma get_done_ok (self : UrlboxClient) (ts : bool) (w : World) :
  validation_error (fst (get_done self ts w)) = false
  /\ options (snd (get_done self ts w)) = prepared (options w).
Proof.
  unfold get_done. destruct ts; cbn [fst snd options]; split;
    try reflexivity. apply reply_not_validation.
Qed.

Lemma head_done_ok (self : UrlboxClient) (w : World) :
  validation_error (fst (head_done self w)) = false
  /\ options (snd (head_done self w)) = prepared (options w).
Proof.
  unfold head_done. cbn [fst snd options]. split; [|reflexivity].
  apply reply_not_validation.
Qed.

Lemma post_done_ok (self : UrlboxClient) (w : World) :
  validation_error (fst (post_done self w)) = false
  /\ options (snd (post_done self w)) = prepared (options w).
Proof.
  unfold post_done. cbn [fst snd options]. split; [|reflexivity].
  apply reply_not_validation.
Qed.

(** *** The dictionary across a call *)

Lemma get_normalized_other (k : string) (o : Dict.t) :
  k <> "url" -> Dict.get k (normalized o) = Dict.get k o.
Proof.
  intros Hk. unfold normalized.
  destruct (Dict.get "url" o) as [[u| | |]|]; try reflexivity.
  apply Dict_get_set_other. now apply String.eqb_neq.
Qed.

Lemma get_prepared_other (k : string) (o : Dict.t) :
  k <> "url" -> k <> "format" -> Dict.get k (prepared o) = Dict.get k o.
Proof.
  intros Hu Hf. unfold prepared.
  rewrite Dict_get_set_other by now apply String.eqb_neq.
  now apply get_normalized_other.
Qed.

Lemma keys_set_present (k : string) (v v' : value) (o : Dict.t) :
  Dict.get k o = Some v' -> Dict.keys (Dict.set k v o) = Dict.keys o.
Proof.
  intros E. rewrite Dict_keys_set. unfold Dict.contains. now rewrite E.
Qed.

Lemma keys_normalized (o : Dict.t) : Dict.keys (normalized o) = Dict.keys o.
Proof.
  unfold normalized.
  destruct (Dict.get "url" o) as [[u| | |]|] eqn:Eu; try reflexivity.
  now apply (keys_set_present "url" _ (VStr u)).
Qed.

Lemma keys_prepared (o : Dict.t) :
  Dict.keys (prepared o)
  = if Dict.contains "format" o then Dict.keys o
    else (Dict.keys o ++ ["format"])%list.
Proof.
  unfold prepared. rewrite Dict_keys_set, keys_normalized.
  unfold Dict.contains. now rewrite get_normalized_other by discriminate.
Qed.

(** What holds of the dictionary after a call, read off its ending. *)
Lemma ending_dict {A : Type} (w : World) (done run : result A * World) :
  ending w done run ->
  validation_error (fst done) = false ->
  options (snd done) = prepared (options w) ->
  (forall k, k <> "url" -> k <> "format" ->
     Dict.get k (options (snd run)) = Dict.get k (options w))
  /\ Dict.keys (options (snd run))
     = (if validation_error (fst run) || Dict.contains "format" (options w)
        then Dict.keys (options w)
        else (Dict.keys (options w) ++ ["format"])%list).
Proof.
  intros H Hok Hd.
  inversion H as [e Hg Heq | u Eu Hu Heq | Hv Heq]; subst run;
    cbn [fst snd options].
  - split; [reflexivity|]. now rewrite (guard_is_validation e Hg).
  - split.
    + intros k Hk _. apply Dict_get_set_other. now apply String.eqb_neq.
    + cbn [validation_error orb].
      now apply (keys_set_present "url" _ (VStr u)).
  - rewrite Hd, Hok. split.
    + intros k. apply get_prepared_other.
    + cbn [orb]. apply keys_prepared.
Qed.

(** X9. Every option other than 'url' and 'format' goes through a call
    untouched, whatever the call ends with. *)
Theorem other_options_untouched (self : UrlboxClient) (ts : bool) (w : World)
    (k : string) :
  k <> "url" -> k <> "format" ->
  Dict.get k (options (snd (get self ts w))) = Dict.get k (options w)
  /\ Dict.get k (options (snd (head self w))) = Dict.get k (options w)
  /\ Dict.get k (options (snd (post self w))) = Dict.get k (options w).
Proof.
  intros Hu Hf. repeat split.
  - now apply (ending_dict w _ _ (get_ending self ts w));
      try apply get_done_ok.
  - now apply (ending_dict w _ _ (head_ending self w));
      try apply head_done_ok.
  - now apply (ending_dict w _ _ (post_ending self w));
      try apply post_done_ok.
Qed.

(** X10. A call keeps the keys of the dictionary and their order; the one
    key it can add is 'format', at the end, and only when validation has
    passed and the key was absent. *)
Theorem keys_after_call (self : UrlboxClient) (ts : bool) (w : World) :
  let keys_after {A} (run : result A * World) :=
    if validation_error (fst run) || Dict.contains "format" (options w)
    then Dict.keys (options w)
    else (Dict.keys (options w) ++ ["format"])%list in
  Dict.keys (options (snd (get self ts w))) = keys_after (get self ts w)
  /\ Dict.keys (options (snd (head self w))) = keys_after (head self w)
  /\ Dict.keys (options (snd (post self w))) = keys_after (post self w).
Proof.
  cbv zeta. repeat split.
  - now apply (ending_dict w _ _ (get_ending self ts w));
      try apply get_done_ok.
  - now apply (ending_dict w _ _ (head_ending self w));
      try apply head_done_ok.
  - now apply (ending_dict w _ _ (post_ending self w));
      try apply post_done_ok.
Qed.

(** *** The wire across a call *)

(** X4. [get] with to_string true never sends anything, on any options
    and for any client. *)
Theorem to_string_sends_nothing (self : UrlboxClient) (w : World) :
  wire (snd (get self true w)) = wire w.
Proof.
  pose proof (get_ending self true w) as H. by_ending H; reflexivity.
Qed.




(** *** Validation failures *)

(** X6. [head] on a 'url' string that fails validation once normalized
    raises InvalidUrlException with the normalized URL and sends nothing;
    so does [post] once its webhook_url and api_secret checks have
    passed. *)
Theorem head_post_invalid_url (self : UrlboxClient) (w : World) (u : string) :
  Dict.get "url" (options w) = Some (VStr u) ->
  validators_url (normalize u) = false ->
  let w' :=
    mkWorld (Dict.set "url" (VStr (normalize u)) (options w)) (wire w) in
  head self w = (Raise (InvalidUrlException (normalize u)), w')
  /\ (forall secret : string,
        Dict.contains "webhook_url" (options w) = true ->
        api_secret self = Some secret ->
        post self w = (Raise (InvalidUrlException (normalize u)), w')).
Proof.
  intros Eu Hu. cbv zeta. split.
  - now apply head_invalid_url.
  - intros secret Hw Es. now apply (post_invalid_url self w secret).
Qed.

(** X7. A 'url' that is not a string is refused with an AttributeError
    before anything is changed or sent: by [get] and [head] always, by
    [post] once its webhook_url and api_secret checks have passed. *)
Theorem url_not_a_string (self : UrlboxClient) (ts : bool) (w : World)
    (v : value) :
  Dict.get "url" (options w) = Some v ->
  (forall u, v <> VStr u) ->
  (exists msg, get self ts w = (Raise (AttributeError msg), w))
  /\ (exists msg, head self w = (Raise (AttributeError msg), w))
  /\ (forall secret : string,
        Dict.contains "webhook_url" (options w) = true ->
        api_secret self = Some secret ->
        exists msg, post self w = (Raise (AttributeError msg), w)).
Proof.
  intros Eu Hn. repeat split.
  - now apply (get_url_not_str self ts w v).
  - now apply (head_url_not_str self w v).
  - intros secret Hw Es. now apply (post_url_not_str self w secret v).
Qed.

Lemma ending_invalid {A : Type} (w : World) (done run : result A * World)
    (x : string) :
  ending w done run ->
  validation_error (fst done) = false ->
  fst run = Raise (InvalidUrlException x) ->
  Dict.get "url" (options (snd run)) = Some (VStr x)
  /\ Dict.get "format" (options (snd run)) = Dict.get "format" (options w)
  /\ Dict.keys (options (snd run)) = Dict.keys (options w)
  /\ wire (snd run) = wire w.
Proof.
  intros H Hok.
  inversion H as [e Hg Heq | u Eu Hu Heq | Hv Heq]; subst run;
    cbn [fst snd options wire].
  - intros [= ->]. inversion Hg.
  - intros [= <-]. repeat split.
    + apply Dict_get_set_same.
    + now apply Dict_get_set_other.
    + now apply (keys_set_present "url" _ (VStr u)).
  - intros E. rewrite E in Hok. discriminate.
Qed.

(** X8. When a call fails with InvalidUrlException, the caller's
    dictionary has been changed all the same: options['url'] now holds the
    normalized URL the exception carries; 'format' has not been defaulted,
    no key was added and nothing was sent. *)
Theorem invalid_url_side_effect (self : UrlboxClient) (ts : bool) (w : World)
    (x : string) :
  let changed {A} (run : result A * World) :=
    fst run = Raise (InvalidUrlException x) ->
    Dict.get "url" (options (snd run)) = Some (VStr x)
    /\ Dict.get "format" (options (snd run)) = Dict.get "format" (options w)
    /\ Dict.keys (options (snd run)) = Dict.keys (options w)
    /\ wire (snd run) = wire w in
  changed (get self ts w) /\ changed (head self w) /\ changed (post self w).
Proof.
  cbv beta zeta. split; [|split]; intros E.
  - now apply (ending_invalid w _ _ x (get_ending self ts w));
      try apply get_done_ok.
  - now apply (ending_invalid w _ _ x (head_ending self w));
      try apply head_done_ok.
  - now apply (ending_invalid w _ _ x (post_ending self w));
      try apply post_done_ok.
Qed.

(** *** The URLs *)

(** X3. On options with a valid target the string [get] returns with
    to_string true is the very URL [head] requests, and the URL [get]
    requests when the client has no secret. *)
Theorem plain_url_shared (self : UrlboxClient) (w : World) :
  valid_target (options w) = true ->
  let U := plain_url self (prepared (options w)) in
  fst (get self true w) = Return (UrlString U)
  /\ wire (snd (head self w)) = (wire w ++ [mkRequest HEAD U [] None])%list
  /\ (api_secret self = None ->
      wire (snd (get self false w))
      = (wire w ++ [mkRequest GET U [] None])%list).
Proof.
  intros Hv. cbv zeta. unfold plain_url. repeat split.
  - now rewrite (get_valid self true w Hv).
  - now rewrite (head_valid self w Hv).
  - intros Es. rewrite (get_valid self false w Hv). cbv zeta.
    unfold get_url. now rewrite Es.
Qed.

Lemma Dict_set_same_id (k : string) (v : value) (d : Dict.t) :
  Dict.get k d = Some v -> Dict.set k v d = d.
Proof.
  induction d as [|[k' v'] r IH]; cbn; [discriminate|].
  destruct (String.eqb k k') eqn:E.
  - apply String.eqb_eq in E. now intros [= ->]; subst.
  - intros H. now rewrite IH.
Qed.

Lemma normalize_idem (u : string) : normalize (normalize u) = normalize u.
Proof.
  destruct (normalize_shape u) as [Hp Hs]. now apply normalize_http.
Qed.

(** Preparing a prepared dictionary changes nothing. *)
Lemma prepared_idem (o : Dict.t) :
  valid_target o = true ->
  valid_target (prepared o) = true /\ prepared (prepared o) = prepared o.
Proof.
  unfold valid_target at 1. unfold _valid_url, Dict.contains.
  destruct (Dict.get "url" o) as [[u| | |]|] eqn:Eu; try discriminate;
    intros Hv.
  - pose proof (url_of_prepared o u Eu) as Eu'.
    split.
    + unfold valid_target, _valid_url. now rewrite Eu', normalize_idem.
    + unfold prepared at 1. rewrite format_of_prepared.
      unfold normalized. rewrite Eu', normalize_idem.
      rewrite (Dict_set_same_id "url" _ _ Eu').
      apply Dict_set_same_id, format_in_prepared.
  - assert (Eu' : Dict.get "url" (prepared o) = None)
      by (now rewrite (prepared_html o Eu), Dict_get_set_other).
    split.
    + unfold valid_target, Dict.contains. rewrite Eu'.
      now rewrite get_prepared_other by discriminate.
    + unfold prepared at 1. rewrite format_of_prepared.
      unfold normalized. rewrite Eu'.
      apply Dict_set_same_id, format_in_prepared.
Qed.

(** X11. A dictionary a call has gone through can be used again: on
    options with a valid target a second [get] with to_string true returns
    the same URL and leaves the dictionary as the first call left it, and
    [get] after [head] returns the URL [head] requested. *)
Theorem get_again (self : UrlboxClient) (w : World) :
  valid_target (options w) = true ->
  get self true (snd (get self true w)) = get self true w
  /\ fst (get self true (snd (head self w))) = fst (get self true w).
Proof.
  intros Hv. destruct (prepared_idem _ Hv) as [Hv' Hp].
  rewrite (get_valid self true w Hv), (head_valid self w Hv).
  cbv zeta. cbn [snd]. split.
  - rewrite get_valid by exact Hv'. cbv zeta. cbn [options wire].
    now rewrite Hp.
  - rewrite get_valid by exact Hv'. cbv zeta. cbn [options wire fst].
    now rewrite Hp.
Qed.

(** X1. Whatever 'url' string the caller supplies, the value [get] and
    [head] store back starts with "http", has no white space at its end,
    and is a fixed point of the normalization: stripping and prefixing it
    again gives the same string. *)
Theorem stored_url_normal_form (self : UrlboxClient) (ts : bool) (w : World)
    (u : string) :
  Dict.get "url" (options w) = Some (VStr u) ->
  exists x : string,
    Dict.get "url" (options (snd (get self ts w))) = Some (VStr x)
    /\ Dict.get "url" (options (snd (head self w))) = Some (VStr x)
    /\ PyStr.startswith x "http" = true
    /\ PyStr.trailing_space x = false
    /\ _prepend_schema (PyStr.strip x) = x.
Proof.
  intros Eu. exists (normalize u).
  destruct (normalize_shape u) as [Hp Hs].
  repeat split; auto.
  - now apply url_after_get.
  - now apply url_after_head.
  - apply normalize_idem.
Qed.

(** X2. A 'url' that is empty or made of white space only passes the
    presence check, is normalized to the bare scheme "http://" and, when
    the validator refuses that, fails with InvalidUrlException "http://"
    with nothing sent. *)
Theorem blank_url (self : UrlboxClient) (ts : bool) (w : World) (u : string) :
  Dict.get "url" (options w) = Some (VStr u) ->
  PyStr.all PyStr.isspace u = true ->
  validators_url "http://" = false ->
  _prepend_schema (PyStr.strip u) = "http://"
  /\ fst (get self ts w) = Raise (InvalidUrlException "http://")
  /\ wire (snd (get self ts w)) = wire w.
Proof.
  intros Eu Hb Hv.
  assert (Hn : normalize u = "http://").
  { unfold normalize, PyStr.strip. now rewrite (lstrip_blank _ _ Hb). }
  split; [exact Hn|].
  rewrite <- Hn in Hv. rewrite (get_invalid_url self ts w u Eu Hv).
  now rewrite Hn.
Qed.

Lemma base_is_https (host : option string) :
  prefix "https://" (_init_base_api_url host) = true.
Proof. destruct host as [h|]; [apply prefix_app | reflexivity]. Qed.

Lemma ending_https {A : Type} (w : World) (done run : result A * World)
    (r0 r : Request) :
  ending w done run ->
  wire (snd done) = (wire w ++ [r0])%list ->
  PyStr.startswith (req_url r0) "https://" = true ->
  In r (wire (snd run)) ->
  In r (wire w) \/ PyStr.startswith (req_url r) "https://" = true.
Proof.
  intros H Hd H0.
  inversion H as [e Hg Heq | u Eu Hu Heq | Hv Heq]; subst run;
    cbn [snd wire]; auto.
  rewrite Hd. intros Hin. apply in_app_or in Hin as [Hin | [<- | []]]; auto.
Qed.

(** X13. A client built by the constructor talks https only, with the
    default host or with a host of its own: every request [get], [head]
    or [post] puts on the wire goes to a URL that starts with
    "https://". *)
Theorem requests_go_https (key : string) (secret host : option string)
    (w : World) (r : Request) :
  let self := __init__ key secret host in
  In r (wire (snd (get self false w)))
  \/ In r (wire (snd (head self w)))
  \/ In r (wire (snd (post self w))) ->
  In r (wire w) \/ PyStr.startswith (req_url r) "https://" = true.
Proof.
  cbv zeta. intros [H | [H | H]].
  - apply (ending_https w _ _
             (mkRequest GET
                (get_url (__init__ key secret host) (prepared (options w)))
                [] None) r (get_ending (__init__ key secret host) false w)); auto.
    unfold get_url, PyStr.startswith. cbn [req_url __init__ api_secret base_api_url].
    destruct secret; apply prefix_app_l, base_is_https.
  - apply (ending_https w _ _
             (mkRequest HEAD
                (plain_url (__init__ key secret host) (prepared (options w)))
                [] None) r (head_ending (__init__ key secret host) w)); auto.
    unfold plain_url, PyStr.startswith. cbn [req_url __init__ base_api_url].
    apply prefix_app_l, base_is_https.
  - pose proof (post_ending (__init__ key secret host) w) as He.
    unfold post_done in He.
    match type of He with
    | ending _ (_, mkWorld _ (_ ++ [?r0])%list) _ =>
        apply (ending_https w _ _ r0 r He); auto
    end.
    unfold PyStr.startswith. cbn [req_url __init__ base_api_url].
    apply prefix_app_l, base_is_https.
Qed.

End Coverage.

(* ------------------------------------------------------------------ *)
(** ** The token and the query *)

Lemma be_bytes_length (n : nat) (z : Z) : List.length (Sha1.be_bytes n z) = n.
Proof.
  revert z. induction n as [|n IH]; intros z; [reflexivity|].
  cbn [Sha1.be_bytes]. rewrite length_app, IH. cbn. lia.
Qed.

(** A SHA-1 digest has 20 bytes, whatever the message. *)
Lemma sha1_digest_length (msg : list byte) :
  List.length (Sha1.digest msg) = 20%nat.
Proof.
  unfold Sha1.digest. cbv zeta.
  destruct (Sha1.blocks _ _ _) as [[[[h0 h1] h2] h3] h4].
  rewrite length_map. cbn [flat_map].
  now rewrite !length_app, !be_bytes_length.
Qed.

Lemma hex_length (l : list byte) :
  String.length (Hmac.hex l) = (2 * List.length l)%nat.
Proof.
  induction l as [|b r IH]; [reflexivity|].
  cbn [Hmac.hex Hmac.hex_byte String.append String.length List.length].
  rewrite IH. lia.
Qed.

Lemma hex_byte_lower (b : byte) :
  PyStr.all Hmac.lower_hex (Hmac.hex_byte b) = true.
Proof. destruct b; reflexivity. Qed.

Lemma hex_lower (l : list byte) : PyStr.all Hmac.lower_hex (Hmac.hex l) = true.
Proof.
  induction l as [|b r IH]; [reflexivity|].
  cbn [Hmac.hex]. now rewrite all_app, hex_byte_lower, IH.
Qed.

(** X12. With a secret configured the token is always a string of exactly
    40 characters, each one of 0-9 a-f: it adds one path segment to the
    URL and nothing that needs escaping. *)
Theorem token_shape (self : UrlboxClient) (secret q : string) :
  api_secret self = Some secret ->
  exists t : string,
    _token self q = Return t
    /\ String.length t = 40%nat
    /\ PyStr.all Hmac.lower_hex t = true.
Proof.
  intros Es. eexists. split; [exact (token_digest self secret q Es)|]. split.
  - unfold Hmac.hexdigest, Hmac.digest.
    now rewrite hex_length, sha1_digest_length.
  - apply hex_lower.
Qed.

Lemma quoter_plain (b : byte) :
  PyStr.all (fun c => Urllib.always_safe c || PyStr.mem c "%")
    (Urllib.quoter "" b) = true.
Proof. destruct b; reflexivity. Qed.

Lemma quoter_space (b : byte) :
  PyStr.all (fun c => Urllib.always_safe c || PyStr.mem c "% ")
    (Urllib.quoter " " b) = true.
Proof. destruct b; reflexivity. Qed.

Lemma quote_plus_chars (s : string) :
  PyStr.all Urllib.query_char (Urllib.quote_plus s) = true.
Proof.
  unfold Urllib.quote_plus, Urllib.quote, Urllib.quote_from_bytes.
  destruct (PyStr.mem " " s).
  - apply all_replace
      with (p := fun c => Urllib.always_safe c || PyStr.mem c "% ").
    + intros c. destruct c as [[] [] [] [] [] [] [] []];
        try reflexivity; discriminate.
    + apply all_concat, Forall_forall. intros x Hx.
      apply in_map_iff in Hx as (b & <- & _). apply quoter_space.
  - apply all_impl
      with (p := fun c => Urllib.always_safe c || PyStr.mem c "%").
    + intros c. destruct c as [[] [] [] [] [] [] [] []];
        try reflexivity; discriminate.
    + apply all_concat, Forall_forall. intros x Hx.
      apply in_map_iff in Hx as (b & <- & _). apply quoter_plain.
Qed.

Lemma encode_ascii_length (s : string) :
  PyStr.all Urllib.query_char s = true ->
  List.length (PyStr.encode s) = String.length s.
Proof.
  induction s as [|c r IH]; [reflexivity|].
  cbn [PyStr.all PyStr.encode String.length]. intros H.
  apply andb_true_iff in H as [Hc Hr].
  rewrite length_app, (IH Hr).
  assert (Hu : List.length (PyStr.utf8 c) = 1%nat).
  { revert Hc. destruct c as [[] [] [] [] [] [] [] []];
      try reflexivity; discriminate. }
  now rewrite Hu.
Qed.

(** X14. The query string the client puts in its URLs and signs is made of
    ASCII letters, digits and the characters _ . - ~ % + = & only, for any
    options: no blank and no raw non-ASCII character, so the message
    handed to HMAC has one byte for each character of the query. *)
Theorem query_alphabet (d : Dict.t) :
  PyStr.all Urllib.query_char (Urllib.urlencode d) = true
  /\ List.length (PyStr.encode (Urllib.urlencode d))
     = String.length (Urllib.urlencode d).
Proof.
  assert (H : PyStr.all Urllib.query_char (Urllib.urlencode d) = true).
  { unfold Urllib.urlencode.
    apply all_join; [reflexivity|].
    apply Forall_forall. intros x Hx.
    apply in_map_iff in Hx as ([k v] & <- & _). cbn [fst snd].
    now rewrite !all_app, !quote_plus_chars. }
  split; [exact H | now apply encode_ascii_length].
Qed.

(* ------------------------------------------------------------------ *)
(** ** The further properties on concrete calls *)

Lemma stored_url_normal_form_witness :
  let w := mkWorld [("url", VStr "  example.com/x  ")] [] in
  Dict.get "url" (options w) = Some (VStr "  example.com/x  ")
  /\ exists x : string,
       Dict.get "url"
         (options (snd (get (env := Sample.env) Sample.keyed true w)))
       = Some (VStr x)
       /\ Dict.get "url"
            (options (snd (head (env := Sample.env) Sample.keyed w)))
          = Some (VStr x)
       /\ PyStr.startswith x "http" = true
       /\ PyStr.trailing_space x = false
       /\ _prepend_schema (PyStr.strip x) = x.
Proof.
  cbv zeta. split; [reflexivity|].
  exact (stored_url_normal_form (env := Sample.env) Sample.keyed true
           (mkWorld [("url", VStr "  example.com/x  ")] [])
           "  example.com/x  " eq_refl).
Defined.

Lemma blank_url_witness :
  let w := mkWorld [("url", VStr "   ")] [] in
  Dict.get "url" (options w) = Some (VStr "   ")
  /\ PyStr.all PyStr.isspace "   " = true
  /\ validators_url (Collaborators := Sample.env) "http://" = false
  /\ _prepend_schema (PyStr.strip "   ") = "http://"
  /\ fst (get (env := Sample.env) Sample.keyed false w)
     = Raise (InvalidUrlException "http://")
  /\ wire (snd (get (env := Sample.env) Sample.keyed false w)) = [].
Proof.
  cbv zeta. split; [reflexivity|]. split; [reflexivity|].
  split; [reflexivity|].
  exact (blank_url (env := Sample.env) Sample.keyed false
           (mkWorld [("url", VStr "   ")] []) "   " eq_refl eq_refl eq_refl).
Defined.

Lemma plain_url_shared_witness :
  let w := mkWorld [("url", VStr "example.com"); ("width", VInt 300)] [] in
  let U :=
    "https://api.urlbox.io/v1/K/png?url=http%3A%2F%2Fexample.com&width=300&format=png" in
  valid_target (env := Sample.env) (options w) = true
  /\ api_secret Sample.anonymous = None
  /\ fst (get (env := Sample.env) Sample.anonymous true w)
     = Return (UrlString U)
  /\ wire (snd (head (env := Sample.env) Sample.anonymous w))
     = [mkRequest HEAD U [] None]
  /\ wire (snd (get (env := Sample.env) Sample.anonymous false w))
     = [mkRequest GET U [] None].
Proof.
  cbv zeta. split; [reflexivity|]. split; [reflexivity|].
  pose proof (plain_url_shared (env := Sample.env) Sample.anonymous
                (mkWorld [("url", VStr "example.com"); ("width", VInt 300)] [])
                eq_refl) as H.
  cbv zeta in H. destruct H as (H1 & H2 & H3).
  split; [exact H1|]. split; [exact H2 | exact (H3 eq_refl)].
Defined.

Lemma head_post_invalid_url_witness :
  let o := [("url", VStr "not a url"); ("webhook_url", VStr "http://h.example/cb")] in
  let o' :=
    [("url", VStr "http://not a url");
     ("webhook_url", VStr "http://h.example/cb")] in
  Dict.get "url" o = Some (VStr "not a url")
  /\ validators_url (Collaborators := Sample.env) (normalize "not a url")
     = false
  /\ head (env := Sample.env) Sample.keyed (mkWorld o [])
     = (Raise (InvalidUrlException "http://not a url"), mkWorld o' [])
  /\ post (env := Sample.env) Sample.keyed (mkWorld o [])
     = (Raise (InvalidUrlException "http://not a url"), mkWorld o' []).
Proof.
  cbv zeta. split; [reflexivity|]. split; [reflexivity|].
  pose proof (head_post_invalid_url (env := Sample.env) Sample.keyed
                (mkWorld
                   [("url", VStr "not a url");
                    ("webhook_url", VStr "http://h.example/cb")] [])
                "not a url" eq_refl eq_refl) as H.
  cbv zeta in H. destruct H as (H1 & H2).
  split; [exact H1 | exact (H2 "S" eq_refl eq_refl)].
Defined.

Lemma url_not_a_string_witness :
  let w := mkWorld [("url", VInt 5); ("webhook_url", VStr "http://h.example/cb")] [] in
  Dict.get "url" (options w) = Some (VInt 5)
  /\ (exists msg,
        get (env := Sample.env) Sample.keyed true w
        = (Raise (AttributeError msg), w))
  /\ (exists msg,
        head (env := Sample.env) Sample.keyed w
        = (Raise (AttributeError msg), w))
  /\ (exists msg,
        post (env := Sample.env) Sample.keyed w
        = (Raise (AttributeError msg), w)).
Proof.
  cbv zeta. split; [reflexivity|].
  pose proof (url_not_a_string (env := Sample.env) Sample.keyed true
                (mkWorld
                   [("url", VInt 5);
                    ("webhook_url", VStr "http://h.example/cb")] [])
                (VInt 5) eq_refl
                (fun u (E : VInt 5 = VStr u) =>
                   match E in _ = y
                         return match y with VInt _ => True | _ => False end
                   with eq_refl => I end)) as (H1 & H2 & H3).
  split; [exact H1|]. split; [exact H2 | exact (H3 "S" eq_refl eq_refl)].
Defined.

Lemma invalid_url_side_effect_witness :
  let w := mkWorld [("url", VStr " not a url ")] [] in
  fst (get (env := Sample.env) Sample.keyed true w)
  = Raise (InvalidUrlException "http://not a url")
  /\ Dict.get "url"
       (options (snd (get (env := Sample.env) Sample.keyed true w)))
     = Some (VStr "http://not a url")
  /\ Dict.get "format"
       (options (snd (get (env := Sample.env) Sample.keyed true w)))
     = None.
Proof.
  cbv zeta. split; [reflexivity|].
  pose proof (proj1 (invalid_url_side_effect (env := Sample.env) Sample.keyed
                       true (mkWorld [("url", VStr " not a url ")] [])
                       "http://not a url") eq_refl) as (H1 & H2 & _).
  split; [exact H1 | exact H2].
Defined.

Lemma other_options_untouched_witness :
  let w := mkWorld [("url", VStr "example.com"); ("width", VInt 300)] [] in
  "width" <> "url" /\ "width" <> "format"
  /\ Dict.get "width"
       (options (snd (get (env := Sample.env) Sample.keyed false w)))
     = Some (VInt 300)
  /\ Dict.get "width" (options (snd (head (env := Sample.env) Sample.keyed w)))
     = Some (VInt 300)
  /\ Dict.get "width" (options (snd (post (env := Sample.env) Sample.keyed w)))
     = Some (VInt 300).
Proof.
  cbv zeta.
  assert (H1 : "width" <> "url") by discriminate.
  assert (H2 : "width" <> "format") by discriminate.
  split; [exact H1|]. split; [exact H2|].
  exact (other_options_untouched (env := Sample.env) Sample.keyed false
           (mkWorld [("url", VStr "example.com"); ("width", VInt 300)] [])
           "width" H1 H2).
Defined.

Lemma get_again_witness :
  let w := mkWorld [("url", VStr " example.com ")] [] in
  valid_target (env := Sample.env) (options w) = true
  /\ get (env := Sample.env) Sample.keyed true
       (snd (get (env := Sample.env) Sample.keyed true w))
     = get (env := Sample.env) Sample.keyed true w
  /\ fst (get (env := Sample.env) Sample.keyed true
            (snd (head (env := Sample.env) Sample.keyed w)))
     = fst (get (env := Sample.env) Sample.keyed true w).
Proof.
  cbv zeta. split; [reflexivity|].
  exact (get_again (env := Sample.env) Sample.keyed
           (mkWorld [("url", VStr " example.com ")] []) eq_refl).
Defined.

Lemma token_shape_witness :
  api_secret Sample.keyed = Some "S"
  /\ exists t : string,
       _token Sample.keyed "url=http%3A%2F%2Fexample.com&format=png"
       = Return t
       /\ String.length t = 40%nat
       /\ PyStr.all Hmac.lower_hex t = true.
Proof.
  split; [reflexivity|].
  exact (token_shape Sample.keyed "S"
           "url=http%3A%2F%2Fexample.com&format=png" eq_refl).
Defined.

Lemma requests_go_https_witness :
  let w := mkWorld [("html", VStr "<p>")] [] in
  let r :=
    mkRequest HEAD "https://shots.example/K/png?html=%3Cp%3E&format=png" []
      None in
  In r (wire (snd (head (env := Sample.env)
                     (__init__ "K" (Some "S") (Some "shots.example")) w)))
  /\ (In r (wire w) \/ PyStr.startswith (req_url r) "https://" = true).
Proof.
  cbv zeta.
  assert (H : In (mkRequest HEAD
                    "https://shots.example/K/png?html=%3Cp%3E&format=png" []
                    None)
                (wire (snd (head (env := Sample.env)
                              (__init__ "K" (Some "S") (Some "shots.example"))
                              (mkWorld [("html", VStr "<p>")] [])))))
    by (vm_compute; left; reflexivity).
  split; [exact H|].
  exact (requests_go_https (env := Sample.env) "K" (Some "S")
           (Some "shots.example") (mkWorld [("html", VStr "<p>")] []) _
           (or_intror (or_introl H))).
Defined.

